(** * bluepy/sensortag.py: decoding and dispatch layer of the TI SensorTag driver

    A shallow embedding of [src/bluepy/sensortag.py]: the [struct] decoders,
    the two notification delegates, the dashboard renderer, the sensor
    drivers with their enable/read/disable protocol, and the construction of
    the per-generation driver registry, followed by the properties that the
    specification states about them.

    Conventions.
    - Python [int] is [Z]; [~], [&], [|], [<<], [>>] are [Z.lnot], [Z.land],
      [Z.lor], [Z.shiftl], [Z.shiftr] (two's complement, unbounded).
    - [bytes] is [list byte].
    - A Python [float] is an IEEE 754 binary64 number, and the arithmetic
      of the decoders is that of [double], the Standard Library's
      specification of the format ([SpecFloat]): every operation rounds to
      nearest, ties to even. A float that the code obtains by one correctly
      rounded operation on exact operands (the quotients of the Gen1
      accelerometer and of the Gen2 barometer, a calibration constant,
      [round(x, 2)]) is written as the rational it rounds: [Fl q] is the
      float nearest to [q]. The two calls of [math.pow] in the Gen1 infrared
      decoder are kept symbolic (see [pyfloat]).
    - An exception is a value of [exn]; code that mutates an object and may
      raise lives in the monad [Py], whose state survives a raise, exactly as
      an attribute assigned before a Python exception stays assigned. *)

From Stdlib Require Import ZArith Zbitwise QArith Qabs Lqa String Ascii DecimalString Strings.Byte.
From Stdlib Require SpecFloat.
From stdpp Require Import gmap strings list.

Open Scope Z_scope.

(** ** Exceptions and results *)

Inductive exn : Type :=
| AttributeError    (* attribute missing, or attribute access on None *)
| StructError       (* struct.error: buffer length differs from the format *)
| TypeError         (* ord() of a bytes object whose length is not 1 *)
| KeyError          (* dict lookup of an absent key *)
| ValueError        (* math domain error, tuple unpacking mismatch *)
| ZeroDivisionError
| IndexError.        (* list index out of range *)

Inductive res (A : Type) : Type :=
| Ok (a : A)
| Raise (e : exn).
Arguments Ok {A} a.
Arguments Raise {A} e.

Definition res_bind {A B} (r : res A) (k : A → res B) : res B :=
  match r with
  | Ok a => k a
  | Raise e => Raise e
  end.

Definition is_Ok {A} (r : res A) : bool :=
  match r with Ok _ => true | Raise _ => false end.

Global Instance res_ret : MRet res := @Ok.
Global Instance res_mbind : MBind res := fun A B k r => res_bind r k.

(** ** The state-and-trace monad of a Python object's methods

    A method of an object with attributes [S] that makes calls on
    collaborators (recorded as a trace of [E]) and may raise. The state and
    the trace produced before a raise are kept. *)

Section PyMonad.
Context {S E : Type}.

Definition Py (A : Type) : Type := S → res A * S * list E.

Definition ret {A} (a : A) : Py A := fun s => (Ok a, s, []).

Definition bind {A B} (m : Py A) (k : A → Py B) : Py B :=
  fun s =>
    match m s with
    | (Ok a, s1, t1) =>
        match k a s1 with
        | (r, s2, t2) => (r, s2, t1 ++ t2)
        end
    | (Raise e, s1, t1) => (Raise e, s1, t1)
    end.

Definition raise {A} (e : exn) : Py A := fun s => (Raise e, s, []).

Definition lift {A} (r : res A) : Py A := fun s => (r, s, []).

Definition get : Py S := fun s => (Ok s, s, []).

Definition put (s : S) : Py unit := fun _ => (Ok tt, s, []).

Definition emit (e : E) : Py unit := fun s => (Ok tt, s, [e]).

(** [if c: body] *)
Definition when (c : bool) (body : Py unit) : Py unit :=
  if c then body else ret tt.

(** Successive deliveries to a handler [h]. The result holds, per
    delivery, what that delivery emitted. An exception raised inside the
    callback propagates through the transport's wait call and out of the
    poll loop, so delivery stops at the first raise. *)
Fixpoint feed {I} (h : I → Py unit) (inputs : list I) (s : S)
  : list (list E) * res unit * S :=
  match inputs with
  | [] => ([], Ok tt, s)
  | i :: rest =>
      match h i s with
      | (Ok _, s1, t) =>
          match feed h rest s1 with
          | (ts, r, s2) => (t :: ts, r, s2)
          end
      | (Raise e, s1, t) => ([t], Raise e, s1)
      end
  end.
End PyMonad.

Arguments Py : clear implicits.

Global Instance Py_ret {S E} : MRet (Py S E) := @ret S E.
Global Instance Py_bind {S E} : MBind (Py S E) := fun A B k m => bind m k.

(** ** [str] of an [int] *)

Definition str (n : Z) : string := NilZero.string_of_int (Z.to_int n).

(** ** The [struct] module

    Only the format characters that the source uses. Every format of the
    source is either little-endian (["<"]) or made of one-byte fields, so
    there is no padding and the byte order is fixed. *)

Module struct.

Inductive fmt : Type :=
| b_   (* 'b' signed char *)
| B_   (* 'B' unsigned char *)
| h_   (* 'h' signed short *)
| H_.  (* 'H' unsigned short *)

Definition width (f : fmt) : nat :=
  match f with
  | b_ | B_ => 1
  | h_ | H_ => 2
  end.

Definition signed (f : fmt) : bool :=
  match f with
  | b_ | h_ => true
  | B_ | H_ => false
  end.

Definition calcsize (fs : list fmt) : nat := sum_list (width <$> fs).

Definition byte_val (b : byte) : Z := Z.of_N (Byte.to_N b).

(** Little-endian unsigned value of a run of bytes. *)
Fixpoint le_uint (bs : list byte) : Z :=
  match bs with
  | [] => 0
  | b :: bs' => byte_val b + 256 * le_uint bs'
  end.

Definition field (f : fmt) (bs : list byte) : Z :=
  let u := le_uint bs in
  let bits := 8 * Z.of_nat (width f) in
  if signed f && (2 ^ (bits - 1) <=? u) then u - 2 ^ bits else u.

Fixpoint fields (fs : list fmt) (data : list byte) : list Z :=
  match fs with
  | [] => []
  | f :: fs' => field f (take (width f) data) :: fields fs' (drop (width f) data)
  end.

(** [struct.unpack(fmt, data)]: [struct.error] unless the buffer has
    exactly the size of the format. *)
Definition unpack (fs : list fmt) (data : list byte) : res (list Z) :=
  if Nat.eqb (length data) (calcsize fs) then Ok (fields fs data)
  else Raise StructError.

(** [struct.unpack(fmt, data)[0]] for a one-field format. *)
Definition unpack1 (f : fmt) (data : list byte) : res Z :=
  res_bind (unpack [f] data) (fun vs =>
    match vs with
    | v :: _ => Ok v
    | [] => Raise StructError
    end).

Definition byte_of (n : Z) : byte :=
  match Byte.of_N (Z.to_N (n mod 256)) with
  | Some b => b
  | None => Byte.x00
  end.

(** [struct.pack("B", n)] *)
Definition pack_B (n : Z) : res (list byte) :=
  if (0 <=? n) && (n <=? 255) then Ok [byte_of n] else Raise StructError.

(** [struct.pack("<bb", m, n)] *)
Definition pack_bb (m n : Z) : res (list byte) :=
  if (-128 <=? m) && (m <=? 127) && (-128 <=? n) && (n <=? 127)
  then Ok [byte_of m; byte_of n] else Raise StructError.

(** [struct.pack("<H", n)] *)
Definition pack_H (n : Z) : res (list byte) :=
  if (0 <=? n) && (n <=? 65535) then Ok [byte_of n; byte_of (n / 256)]
  else Raise StructError.

End struct.

(** ** KeypressDelegate: the Gen1/2 button edge detector *)

Module KeypressDelegate.

Definition BUTTON_L : Z := 0x02.
Definition BUTTON_R : Z := 0x01.
Definition ALL_BUTTONS : Z := Z.lor BUTTON_L BUTTON_R.

Definition _button_desc : gmap Z string :=
  <[ALL_BUTTONS := "Both buttons"]>
    (<[BUTTON_R := "Right button"]>
       (<[BUTTON_L := "Left button"]> ∅)).

(** The only attribute is [lastVal]; what the delegate emits are the lines
    it prints. *)
Record state : Type := { lastVal : Z }.

Definition __init__ : state := {| lastVal := 0 |}.

Definition M := Py state string.

Definition desc (but : Z) : M string :=
  match _button_desc !! but with
  | Some d => ret d
  | None => raise KeyError
  end.

Definition onButtonUp (but : Z) : M unit :=
  d ← desc but ; emit ("** " +:+ d +:+ " UP").

Definition onButtonDown (but : Z) : M unit :=
  d ← desc but ; emit ("** " +:+ d +:+ " DOWN").

Definition handleNotification (hnd : Z) (data : list byte) : M unit :=
  val ← lift (struct.unpack1 struct.B_ data) ;
   self ← get ;
   let down := Z.land (Z.land val (Z.lnot (lastVal self))) ALL_BUTTONS in
   when (negb (down =? 0)) (onButtonDown down) ;;
   self ← get ;
   let up := Z.land (Z.land (Z.lnot val) (lastVal self)) ALL_BUTTONS in
   when (negb (up =? 0)) (onButtonUp up) ;;
   put {| lastVal := val |}.

(** The lines that stand for the events DOWN(but) and UP(but). *)
Definition DOWN (but : Z) : string :=
  "** " +:+ default "" (_button_desc !! but) +:+ " DOWN".
Definition UP (but : Z) : string :=
  "** " +:+ default "" (_button_desc !! but) +:+ " UP".

(** The edge formulas as the data model of the specification words them. *)
Definition spec_down (last current mask : Z) : Z :=
  Z.land (Z.land (Z.lnot last) current) mask.
Definition spec_up (last current mask : Z) : Z :=
  Z.land (Z.land last (Z.lnot current)) mask.

End KeypressDelegate.

(** ** SensorDelegate: the Gen3 dispatcher (accelerometer fan-in, keys) *)

Module SensorDelegate.

Definition BUTTON_L : Z := 0x02.
Definition BUTTON_R : Z := 0x01.
Definition BUTTON_HOLD : Z := 0xB1.

Definition _button_desc : gmap Z string :=
  <[BUTTON_R := "Button 1"]> (<[BUTTON_L := "Button 2"]> ∅).

(** [x], [y] and [z] are created by the first assignment in
    [handleNotification]; [None] is an attribute that does not exist yet.
    [__init__] sets only [lastVal] and [rnd]. *)
Record state : Type := {
  x : option Z;
  y : option Z;
  z : option Z;
  lastVal : Z
}.

Definition __init__ : state :=
  {| x := None; y := None; z := None; lastVal := 0 |}.

(** A call [self.rnd.render(label, data, unit)]. *)
Record render_call : Type := Render {
  label : string;
  data : string;
  unit_ : string
}.

Definition M := Py state render_call.

(** Reading an attribute that may not exist. *)
Definition attr (f : state → option Z) : M Z :=
  self ← get ;
   match f self with
   | Some v => ret v
   | None => raise AttributeError
   end.

(** [self.x = v], [self.y = v], [self.z = v] *)
Definition upd_x (v : Z) (s : state) : state :=
  {| x := Some v; y := y s; z := z s; lastVal := lastVal s |}.
Definition upd_y (v : Z) (s : state) : state :=
  {| x := x s; y := Some v; z := z s; lastVal := lastVal s |}.
Definition upd_z (v : Z) (s : state) : state :=
  {| x := x s; y := y s; z := Some v; lastVal := lastVal s |}.

Definition set_x (v : Z) : M unit := self ← get; put (upd_x v self).
Definition set_y (v : Z) : M unit := self ← get; put (upd_y v self).
Definition set_z (v : Z) : M unit := self ← get; put (upd_z v self).

Definition desc (but : Z) : M string :=
  match _button_desc !! but with
  | Some d => ret d
  | None => raise KeyError
  end.

Definition onButtonUp (but : Z) : M unit :=
  d ← desc but ; emit (Render "Key pressed: " (d +:+ " UP") "").

Definition onButtonDown (but : Z) : M unit :=
  d ← desc but ; emit (Render "Key pressed: " (d +:+ " DOWN") "").

Definition onButtonHold (but : Z) : M unit :=
  d ← desc but ; emit (Render "Key pressed: " (d +:+ " HOLD") "").

Definition handleNotification (hnd : Z) (data : list byte) : M unit :=
  let but := 0x00 in
   when (hnd =? 110)
     (v ← lift (struct.unpack1 struct.h_ data); set_x v) ;;
   when (hnd =? 114)
     (v ← lift (struct.unpack1 struct.h_ data); set_y v) ;;
   when (hnd =? 118)
     (v ← lift (struct.unpack1 struct.h_ data) ;
      set_z v ;;
      vx ← attr x ;
      vy ← attr y ;
      vz ← attr z ;
      emit (Render "Accelerometer: "
              (str vx +:+ "," +:+ str vy +:+ "," +:+ str vz) "")) ;;
   let but := if hnd =? 90 then 0x01 else but in
   let but := if hnd =? 94 then 0x02 else but in
   when (negb (but =? 0x00))
     (val ← lift (struct.unpack1 struct.B_ data) ;
      when (val =? 0x01) (onButtonDown but) ;;
      when (val =? 0x00) (onButtonUp but) ;;
      when (val =? 0xB1) (onButtonHold but)).

(** The three axis channels. *)
Definition X_HND : Z := 110.
Definition Y_HND : Z := 114.
Definition Z_HND : Z := 118.

End SensorDelegate.

Definition deliver_keypress (masks : list (Z * list byte)) (s : KeypressDelegate.state) :=
  feed (fun i => KeypressDelegate.handleNotification (fst i) (snd i)) masks s.

Definition deliver_sensor (inputs : list (Z * list byte)) (s : SensorDelegate.state) :=
  feed (fun i => SensorDelegate.handleNotification (fst i) (snd i)) inputs s.

(** ** render: the terminal dashboard

    [lock] only serialises concurrent callers and is not modelled: every
    method below is one critical section. What the renderer emits are the
    strings it writes to standard output. *)

Module render.

Definition ESC : string := String (ascii_of_nat 27) "".
Definition NL : string := String (ascii_of_nat 10) "".
Definition CR : string := String (ascii_of_nat 13) "".

Record state : Type := {
  current_pos : Z;
  last_pos : Z;
  isRaw : bool;
  dict : gmap string Z
}.

Definition __init__ (isRaw : bool) : state :=
  {| current_pos := 0; last_pos := -1; isRaw := isRaw; dict := ∅ |}.

Definition M := Py state string.

(** [self.current_pos = v] *)
Definition with_current_pos (v : Z) (s : state) : state :=
  {| current_pos := v; last_pos := last_pos s;
     isRaw := isRaw s; dict := dict s |}.

Definition set_current_pos (v : Z) : M unit :=
  self ← get; put (with_current_pos v self).

Definition set_last_pos (v : Z) : M unit :=
  self ← get;
  put {| current_pos := current_pos self; last_pos := v;
         isRaw := isRaw self; dict := dict self |}.

Definition set_item (label : string) (v : Z) : M unit :=
  self ← get;
  put {| current_pos := current_pos self; last_pos := last_pos self;
         isRaw := isRaw self; dict := <[label := v]> (dict self) |}.

Definition moveCursor (line : Z) : M unit :=
  self ← get;
  when (current_pos self <? line)
    (let cycle := line - current_pos self in
     emit (ESC +:+ "[" +:+ str cycle +:+ "E")) ;;
  self ← get;
  when (current_pos self >? line)
    (let cycle := current_pos self - line in
     emit (ESC +:+ "[" +:+ str cycle +:+ "F")) ;;
  set_current_pos line.

Definition getLine (label : string) : M Z :=
  self ← get;
  let saved_pos := current_pos self in
  when (bool_decide (dict self !! label = None))
    (set_last_pos (last_pos self + 1) ;;
     self ← get;
     set_item label (last_pos self) ;;
     when (last_pos self >? 0) (moveCursor (last_pos self)) ;;
     emit NL ;;
     emit (ESC +:+ "[F") ;;
     when (last_pos self >? 0) (moveCursor saved_pos) ;;
     emit NL) ;;
  self ← get;
  match dict self !! label with
  | Some line => ret line
  | None => raise KeyError
  end.

Definition printDashboard (label data unit_ : string) : M unit :=
  line ← getLine label;
  moveCursor line ;;
  emit (ESC +:+ "[K") ;;
  emit (label +:+ " " +:+ data +:+ " " +:+ unit_ +:+ CR).

Definition render (label data unit_ : string) : M unit :=
  self ← get;
  if isRaw self then emit (label +:+ " " +:+ data +:+ NL)
  else printDashboard label data unit_.

(** Successive [getLine] calls, collecting the line each one returns. *)
Fixpoint getLines (labels : list string) : M (list Z) :=
  match labels with
  | [] => ret []
  | l :: rest =>
      line ← getLine l;
      lines ← getLines rest;
      ret (line :: lines)
  end.

(** Successive [render] calls in the mode of the renderer. *)
Fixpoint renders (calls : list (string * string * string)) : M unit :=
  match calls with
  | [] => ret tt
  | (label, data, unit_) :: rest => render label data unit_ ;; renders rest
  end.

End render.

(** The labels of a sequence of [render(label, data, unit)] calls. *)
Definition labels_of (calls : list (string * string * string)) : list string :=
  (λ c, c.1.1) <$> calls.

(** The state of the line table after the labels [L] have been resolved, in
    that order. *)
Definition lines_assigned (s : render.state) (L : list string) : Prop :=
  (∀ l, is_Some (render.dict s !! l) ↔ l ∈ L)
  ∧ render.last_pos s = Z.of_nat (length (remove_dups L)) - 1
  ∧ (∀ pre post l, L = pre ++ l :: post → l ∉ pre →
       render.dict s !! l = Some (Z.of_nat (length (remove_dups pre))))
  ∧ (∀ l i, render.dict s !! l = Some i → 0 <= i <= render.last_pos s)
  ∧ (∀ l1 l2 i, render.dict s !! l1 = Some i → render.dict s !! l2 = Some i → l1 = l2).


(** ** The transport, as the drivers use it

    The BLE transport is an external collaborator. A driver holds handles
    that the transport resolved and performs reads and writes through them;
    the operations performed are the trace of a driver method. What a read
    returns is the value the device holds at that moment, [dev]. Failures of
    the transport itself (a connection error, a service that has no such
    characteristic) are outside the model. *)

Definition UUID : Type := Z.

(** [_TI_UUID(val)]: the 128-bit number written
    ["%08X-0451-4000-b000-000000000000" % (0xF0000000+val)]. *)
Definition _TI_UUID (val : Z) : UUID :=
  Z.shiftl (0xF0000000 + val) 96 + 0x0451_4000_b000_000000000000.

(** Modelled from the spec: [btle.UUID] is not part of the sources; a 16-bit
    number and the strings of the battery service denote identifiers on the
    Bluetooth base ["0000xxxx-0000-1000-8000-00805f9b34fb"]. *)
Definition UUID16 (val : Z) : UUID :=
  Z.shiftl val 96 + 0x0000_1000_8000_00805f9b34fb.

(** [periph.getServiceByUUID(uuid)] *)
Inductive Service : Type := ServiceOf (uuid : UUID).

(** [service.getCharacteristics(forUUID)[0]]; [forUUID = None] selects among
    all characteristics of the service, hence its first one. *)
Inductive Characteristic : Type := CharOf (svc : Service) (forUUID : option UUID).

(** [service.getDescriptors(forUUID=0x2902)[index]] *)
Inductive Descriptor : Type := DescrOf (svc : Service) (forUUID : Z) (index : nat).

Inductive effect : Type :=
| CharRead (c : Characteristic)
| CharWrite (c : Characteristic) (payload : list byte) (withResponse : bool)
| DescWrite (d : Descriptor) (payload : list byte) (withResponse : bool)
| Print (line : string).

Definition device : Type := Characteristic → list byte.

(** ** Floats *)

(** [a / b] on exact operands. *)
Definition fdiv (a b : Q) : res Q :=
  if Qeq_bool b 0 then Raise ZeroDivisionError else Ok (a / b)%Q.

(** A decimal literal [m]e[e10]. *)
Definition dec (m : Z) (e10 : Z) : Q :=
  if 0 <=? e10 then inject_Z (m * 10 ^ e10)
  else (inject_Z m / inject_Z (10 ^ (- e10)))%Q.

(** Python's [float]: IEEE 754 binary64, every operation rounding to
    nearest, ties to even. *)
Module double.

Definition prec : Z := 53.
Definition emax : Z := 1024.

Definition t : Type := SpecFloat.spec_float.

(** [float(n)], also the conversion of an [int] operand. *)
Definition of_Z (n : Z) : t := SpecFloat.binary_normalize prec emax n 0 false.

Definition add : t → t → t := SpecFloat.SFadd prec emax.
Definition sub : t → t → t := SpecFloat.SFsub prec emax.
Definition mul : t → t → t := SpecFloat.SFmul prec emax.
Definition div : t → t → t := SpecFloat.SFdiv prec emax.

(** The double nearest to [q], for a rational whose numerator and
    denominator are doubles: one correctly rounded division. *)
Definition of_Q (q : Q) : t := div (of_Z (Qnum q)) (of_Z (Zpos (Qden q))).

(** A decimal literal [m]e[e10] of the source. *)
Definition lit (m : Z) (e10 : Z) : t := of_Q (dec m e10).

Definition is_zero (x : t) : bool :=
  match x with
  | SpecFloat.S754_zero _ => true
  | _ => false
  end.

(** [a / b] with a divisor that may be zero. *)
Definition fdiv (a b : t) : res t :=
  if is_zero b then Raise ZeroDivisionError else Ok (div a b).

(** The sign bit; a NaN has none. *)
Definition sign (x : t) : bool :=
  match x with
  | SpecFloat.S754_zero s | SpecFloat.S754_infinity s | SpecFloat.S754_finite s _ _ => s
  | SpecFloat.S754_nan => false
  end.

(** The rational that a finite double denotes. *)
Definition to_Q (x : t) : Q :=
  match x with
  | SpecFloat.S754_finite s m e =>
      let n := if s then Zneg m else Zpos m in
      if 0 <=? e then inject_Z (n * 2 ^ e) else Qmake n (Pos.pow 2 (Z.to_pos (- e)))
  | _ => 0%Q
  end.

End double.

Declare Scope double_scope.
Delimit Scope double_scope with D.
Bind Scope double_scope with double.t.
Infix "+" := double.add : double_scope.
Infix "-" := double.sub : double_scope.
Infix "*" := double.mul : double_scope.
Infix "/" := double.div : double_scope.

(** A float as [read()] returns it. [Fl q] is the float nearest to the
    rational [q], which is [q] itself when [q] is a double; a negative zero
    arises only from a binary32 frame, as do the infinities and NaN. The
    value of the Gen1 infrared decoder goes through [math.pow], which the C
    library does not specify bit by bit: it is kept symbolic. *)
Inductive pyfloat : Type :=
| Fl (q : Q)
| FlNegZero
| FlRoot4Sub (q c : Q)     (* math.pow(q, 0.25) - c, with 0 <= q *)
| FlInf (negative : bool)
| FlNaN.

Definition of_double (x : double.t) : pyfloat :=
  match x with
  | SpecFloat.S754_zero false => Fl 0
  | SpecFloat.S754_zero true => FlNegZero
  | SpecFloat.S754_infinity s => FlInf s
  | SpecFloat.S754_nan => FlNaN
  | SpecFloat.S754_finite _ _ _ => Fl (double.to_Q x)
  end.

(** What [read()] returns. *)
Inductive reading : Type :=
| RTuple (vs : list pyfloat)
| RFloat (v : pyfloat)
| RInt (n : Z)
| RBytes (bs : list byte).

Definition calcPoly (coeffs : list double.t) (x : double.t) : res double.t :=
  match coeffs with
  | c0 :: c1 :: c2 :: _ => Ok (c0 + (c1 * x) + (c2 * x * x))%D
  | _ => Raise IndexError
  end.

(** [struct.unpack('<f', data)[0]]: an IEEE binary32, little-endian; every
    binary32 number is a double. *)
Definition unpack_f (data : list byte) : res pyfloat :=
  if Nat.eqb (length data) 4 then
    let bits := struct.le_uint data in
    let negative := Z.testbit bits 31 in
    let e := Z.land (Z.shiftr bits 23) 0xFF in
    let m := Z.land bits 0x7FFFFF in
    let sign := if negative then (-1) else 1 in
    if e =? 255 then Ok (if m =? 0 then FlInf negative else FlNaN)
    else if e =? 0 then
      Ok (if (m =? 0) && negative then FlNegZero
          else Fl (inject_Z (sign * m) / inject_Z (2 ^ 149)))
    else if e <? 150 then Ok (Fl (inject_Z (sign * (2 ^ 23 + m)) / inject_Z (2 ^ (150 - e))))
    else Ok (Fl (inject_Z (sign * (2 ^ 23 + m) * 2 ^ (e - 150))))
  else Raise StructError.

(** Nearest integer, ties to even. *)
Definition round_half_even (q : Q) : Z :=
  let n := Qnum q in
  let d := Zpos (Qden q) in
  let f := n / d in
  let r2 := 2 * (n mod d) in
  if r2 <? d then f
  else if d <? r2 then f + 1
  else if Z.even f then f else f + 1.

(** [round(v, 2)]: the float nearest to the decimal with two places that
    is nearest to [v], ties to even; a zero keeps the sign of [v], an
    infinity or a NaN is returned as it is. *)
Definition round2 (v : pyfloat) : pyfloat :=
  match v with
  | Fl q =>
      let n := round_half_even (q * 100) in
      if (n =? 0) && negb (Qle_bool 0 q) then FlNegZero
      else Fl (inject_Z n / 100)
  | _ => v
  end.

(** ** The sensor drivers *)

(** The subclasses of [SensorBase]. *)
Inductive sensor_class : Type :=
| IRTemperatureSensor
| IRTemperatureSensorTMP007
| TemperatureSensorHDC2010
| AccelerometerSensor
| AccelerometerSensorADXL362
| MovementSensorMPU9250
| HumiditySensor
| HumiditySensorHDC1000
| HumiditySensorHDC2010
| MagnetometerSensor
| BarometerSensor
| BarometerSensorBMP280
| GyroscopeSensor
| KeypressSensor
| KeypressSensorCC1352R
| OpticalSensorOPT3010
| OpticalSensorOPT3001
| BatterySensor
| BatterySensorCC1352R.

Definition svcUUID (c : sensor_class) : UUID :=
  match c with
  | IRTemperatureSensor | IRTemperatureSensorTMP007
  | TemperatureSensorHDC2010 => _TI_UUID 0xAA00
  | AccelerometerSensor => _TI_UUID 0xAA10
  | AccelerometerSensorADXL362 => _TI_UUID 0xFFA0
  | MovementSensorMPU9250 => _TI_UUID 0xAA80
  | HumiditySensor | HumiditySensorHDC1000 | HumiditySensorHDC2010 => _TI_UUID 0xAA20
  | MagnetometerSensor => _TI_UUID 0xAA30
  | BarometerSensor | BarometerSensorBMP280 => _TI_UUID 0xAA40
  | GyroscopeSensor => _TI_UUID 0xAA50
  | KeypressSensor => UUID16 0xFFE0
  | KeypressSensorCC1352R => _TI_UUID 0x1120
  | OpticalSensorOPT3010 | OpticalSensorOPT3001 => _TI_UUID 0xAA70
  | BatterySensor => UUID16 0x180f
  | BatterySensorCC1352R => _TI_UUID 0x180f
  end.

Definition dataUUID (c : sensor_class) : option UUID :=
  match c with
  | IRTemperatureSensor | IRTemperatureSensorTMP007
  | TemperatureSensorHDC2010 => Some (_TI_UUID 0xAA01)
  | AccelerometerSensor => Some (_TI_UUID 0xAA11)
  | AccelerometerSensorADXL362 => None
  | MovementSensorMPU9250 => Some (_TI_UUID 0xAA81)
  | HumiditySensor | HumiditySensorHDC1000
  | HumiditySensorHDC2010 => Some (_TI_UUID 0xAA21)
  | MagnetometerSensor => Some (_TI_UUID 0xAA31)
  | BarometerSensor | BarometerSensorBMP280 => Some (_TI_UUID 0xAA41)
  | GyroscopeSensor => Some (_TI_UUID 0xAA51)
  | KeypressSensor => Some (UUID16 0xFFE1)
  | KeypressSensorCC1352R => Some (_TI_UUID 0x1121)
  | OpticalSensorOPT3010 | OpticalSensorOPT3001 => Some (_TI_UUID 0xAA71)
  | BatterySensor => Some (UUID16 0x2a19)
  | BatterySensorCC1352R => Some (_TI_UUID 0x2a19)
  end.

Definition ctrlUUID (c : sensor_class) : option UUID :=
  match c with
  | IRTemperatureSensor | IRTemperatureSensorTMP007
  | TemperatureSensorHDC2010 => Some (_TI_UUID 0xAA02)
  | AccelerometerSensor => Some (_TI_UUID 0xAA12)
  | AccelerometerSensorADXL362 => Some (_TI_UUID 0xFFA1)
  | MovementSensorMPU9250 => Some (_TI_UUID 0xAA82)
  | HumiditySensor | HumiditySensorHDC1000
  | HumiditySensorHDC2010 => Some (_TI_UUID 0xAA22)
  | MagnetometerSensor => Some (_TI_UUID 0xAA32)
  | BarometerSensor | BarometerSensorBMP280 => Some (_TI_UUID 0xAA42)
  | GyroscopeSensor => Some (_TI_UUID 0xAA52)
  | KeypressSensor | KeypressSensorCC1352R => None
  | OpticalSensorOPT3010 | OpticalSensorOPT3001 => Some (_TI_UUID 0xAA72)
  | BatterySensor | BatterySensorCC1352R => None
  end.

(** [sensorOn]: [struct.pack("B", 0x01)] unless the class overrides it. *)
Definition sensorOn (c : sensor_class) : option (list byte) :=
  match c with
  | MovementSensorMPU9250 | BarometerSensor | KeypressSensorCC1352R
  | BatterySensor | BatterySensorCC1352R => None
  | GyroscopeSensor => Some [Byte.x07]
  | _ => Some [Byte.x01]
  end.

Definition sensorOff : list byte := [Byte.x00].

Definition calUUID : UUID := _TI_UUID 0xAA43.

(** The four attributes that [BarometerSensor.enable] assigns from the
    calibration characteristic, one after the other with nothing that can
    raise in between. *)
Record calibration : Type := {
  c1_s : Q;
  c2_s : Q;
  sensPoly : list Q;
  offsPoly : list Q
}.

(** The attributes of a driver instance. [service], [ctrl] and [data] are
    [None] after [__init__]. The remaining attributes exist only on the
    classes that assign them: [scale] on [AccelerometerSensor], [S0] on
    [IRTemperatureSensor], [ctrlBits] on [MovementSensorMPU9250],
    [char_descr] on the classes that write descriptors, [calChr] and the
    calibration on [BarometerSensor]; an attribute that has not been
    assigned yet is [None]. *)
Record SensorBase : Type := {
  class : sensor_class;
  service : option Service;
  ctrl : option Characteristic;
  data : option Characteristic;
  scale : Q;
  S0 : Q;
  ctrlBits : Z;
  char_descr : option Descriptor;
  calChr : option Characteristic;
  cal : option calibration
}.

Definition SensorBase__init__ (c : sensor_class) : SensorBase :=
  {| class := c; service := None; ctrl := None; data := None;
     scale := 0; S0 := 0; ctrlBits := 0;
     char_descr := None; calChr := None; cal := None |}.

Definition with_service (v : option Service) (o : SensorBase) : SensorBase :=
  {| class := class o; service := v; ctrl := ctrl o; data := data o;
     scale := scale o; S0 := S0 o; ctrlBits := ctrlBits o;
     char_descr := char_descr o; calChr := calChr o; cal := cal o |}.
Definition with_ctrl (v : option Characteristic) (o : SensorBase) : SensorBase :=
  {| class := class o; service := service o; ctrl := v; data := data o;
     scale := scale o; S0 := S0 o; ctrlBits := ctrlBits o;
     char_descr := char_descr o; calChr := calChr o; cal := cal o |}.
Definition with_data (v : option Characteristic) (o : SensorBase) : SensorBase :=
  {| class := class o; service := service o; ctrl := ctrl o; data := v;
     scale := scale o; S0 := S0 o; ctrlBits := ctrlBits o;
     char_descr := char_descr o; calChr := calChr o; cal := cal o |}.
Definition with_scale (v : Q) (o : SensorBase) : SensorBase :=
  {| class := class o; service := service o; ctrl := ctrl o; data := data o;
     scale := v; S0 := S0 o; ctrlBits := ctrlBits o;
     char_descr := char_descr o; calChr := calChr o; cal := cal o |}.
Definition with_S0 (v : Q) (o : SensorBase) : SensorBase :=
  {| class := class o; service := service o; ctrl := ctrl o; data := data o;
     scale := scale o; S0 := v; ctrlBits := ctrlBits o;
     char_descr := char_descr o; calChr := calChr o; cal := cal o |}.
Definition with_ctrlBits (v : Z) (o : SensorBase) : SensorBase :=
  {| class := class o; service := service o; ctrl := ctrl o; data := data o;
     scale := scale o; S0 := S0 o; ctrlBits := v;
     char_descr := char_descr o; calChr := calChr o; cal := cal o |}.
Definition with_char_descr (v : option Descriptor) (o : SensorBase) : SensorBase :=
  {| class := class o; service := service o; ctrl := ctrl o; data := data o;
     scale := scale o; S0 := S0 o; ctrlBits := ctrlBits o;
     char_descr := v; calChr := calChr o; cal := cal o |}.
Definition with_calChr (v : option Characteristic) (o : SensorBase) : SensorBase :=
  {| class := class o; service := service o; ctrl := ctrl o; data := data o;
     scale := scale o; S0 := S0 o; ctrlBits := ctrlBits o;
     char_descr := char_descr o; calChr := v; cal := cal o |}.
Definition with_cal (v : option calibration) (o : SensorBase) : SensorBase :=
  {| class := class o; service := service o; ctrl := ctrl o; data := data o;
     scale := scale o; S0 := S0 o; ctrlBits := ctrlBits o;
     char_descr := char_descr o; calChr := calChr o; cal := v |}.

(** [IRTemperatureSensor.__init__] *)
Definition IRTemperatureSensor__init__ : SensorBase :=
  with_S0 (dec 64 (-15)) (SensorBase__init__ IRTemperatureSensor).

(** [AccelerometerSensor.__init__]; [firmwareVersion] is the attribute of
    the peripheral. *)
Definition AccelerometerSensor__init__ (firmwareVersion : string) : SensorBase :=
  with_scale (if String.prefix "1.4 " firmwareVersion then 64 else 16)
    (SensorBase__init__ AccelerometerSensor).

(** The constructor of each class. *)
Definition new (c : sensor_class) (firmwareVersion : string) : SensorBase :=
  match c with
  | IRTemperatureSensor => IRTemperatureSensor__init__
  | AccelerometerSensor => AccelerometerSensor__init__ firmwareVersion
  | _ => SensorBase__init__ c
  end.

Module Sensor.

Definition M := Py SensorBase effect.

Definition modify (f : SensorBase → SensorBase) : M unit :=
  self ← get; put (f self).

(** The value of an attribute that must be an object: [AttributeError]
    when the attribute is missing or [None]. *)
Definition the {A} (f : SensorBase → option A) : M A :=
  self ← get;
  match f self with
  | Some v => ret v
  | None => raise AttributeError
  end.

Definition is_None {A} (o : option A) : bool :=
  match o with None => true | Some _ => false end.

(** [SensorBase.enable] *)
Definition SensorBase_enable : M unit :=
  self ← get;
  when (is_None (service self))
    (modify (with_service (Some (ServiceOf (svcUUID (class self)))))) ;;
  self ← get;
  when (is_None (ctrl self))
    (svc ← the service;
     modify (with_ctrl (Some (CharOf svc (ctrlUUID (class self)))))) ;;
  self ← get;
  when (is_None (data self))
    (svc ← the service;
     modify (with_data (Some (CharOf svc (dataUUID (class self)))))) ;;
  match sensorOn (class self) with
  | Some payload => c ← the ctrl; emit (CharWrite c payload true)
  | None => ret tt
  end.

(** [SensorBase.read]: [self.data.read()] *)
Definition SensorBase_read (dev : device) : M (list byte) :=
  c ← the data;
  emit (CharRead c) ;;
  ret (dev c).

(** [SensorBase.disable] *)
Definition SensorBase_disable : M unit :=
  self ← get;
  match ctrl self with
  | Some c => emit (CharWrite c sensorOff false)
  | None => ret tt
  end.

(** [self.char_descr = self.service.getDescriptors(forUUID=0x2902)[i]]
    followed by [self.char_descr.write(struct.pack('<bb', m, 0x00), True)] *)
Definition write_descr (i : nat) (m : Z) : M unit :=
  svc ← the service;
  modify (with_char_descr (Some (DescrOf svc 0x2902 i))) ;;
  d ← the char_descr;
  payload ← lift (struct.pack_bb m 0x00);
  emit (DescWrite d payload true).

Definition AccelerometerSensorADXL362_enable : M unit :=
  SensorBase_enable ;;
  write_descr 0 0x01 ;;
  write_descr 1 0x01 ;;
  write_descr 2 0x01.

Definition AccelerometerSensorADXL362_disable : M unit :=
  self ← get;
  when (negb (is_None (service self)))
    (write_descr 0 0x00 ;;
     write_descr 1 0x00 ;;
     write_descr 2 0x00) ;;
  SensorBase_disable.

Definition GYRO_XYZ : Z := 7.
Definition ACCEL_XYZ : Z := Z.shiftl 7 3.
Definition MAG_XYZ : Z := Z.shiftl 1 6.
Definition ACCEL_RANGE_2G : Z := Z.shiftl 0 8.
Definition ACCEL_RANGE_4G : Z := Z.shiftl 1 8.
Definition ACCEL_RANGE_8G : Z := Z.shiftl 2 8.
Definition ACCEL_RANGE_16G : Z := Z.shiftl 3 8.

Definition write_ctrlBits : M unit :=
  c ← the ctrl;
  self ← get;
  payload ← lift (struct.pack_H (ctrlBits self));
  emit (CharWrite c payload false).

Definition MovementSensorMPU9250_enable (bits : Z) : M unit :=
  SensorBase_enable ;;
  self ← get;
  modify (with_ctrlBits (Z.lor (ctrlBits self) bits)) ;;
  write_ctrlBits.

Definition MovementSensorMPU9250_disable (bits : Z) : M unit :=
  self ← get;
  modify (with_ctrlBits (Z.land (ctrlBits self) (Z.lnot bits))) ;;
  write_ctrlBits.

Definition MovementSensorMPU9250_rawRead (dev : device) : M (list Z) :=
  dval ← SensorBase_read dev;
  lift (struct.unpack (replicate 9 struct.h_) dval).

Definition pow2 (n : Z) : Q := inject_Z (Z.shiftl 1 n).

Definition CAL_FORMAT : list struct.fmt :=
  [struct.H_; struct.H_; struct.H_; struct.H_;
   struct.h_; struct.h_; struct.h_; struct.h_].

(** [(c1,c2,c3,c4,c5,c6,c7,c8) = ...] and the four assignments that
    follow it in [BarometerSensor.enable]. *)
Definition calibration_of (cs : list Z) : option calibration :=
  match cs with
  | [c1; c2; c3; c4; c5; c6; c7; c8] =>
      Some {| c1_s := inject_Z c1 / pow2 24;
              c2_s := inject_Z c2 / pow2 10;
              sensPoly := [inject_Z c3 / 1; inject_Z c4 / pow2 17; inject_Z c5 / pow2 34]%Q;
              offsPoly := [inject_Z c6 * pow2 14; inject_Z c7 / 8; inject_Z c8 / pow2 19]%Q |}
  | _ => None
  end.

Definition BarometerSensor_enable (dev : device) : M unit :=
  SensorBase_enable ;;
  svc ← the service;
  modify (with_calChr (Some (CharOf svc (Some calUUID)))) ;;
  c ← the ctrl;
  payload ← lift (struct.pack_B 0x02);
  emit (CharWrite c payload true) ;;
  calChr ← the calChr;
  emit (CharRead calChr) ;;
  cs ← lift (struct.unpack CAL_FORMAT (dev calChr));
  match calibration_of cs with
  | Some k => modify (with_cal (Some k))
  | None => raise ValueError
  end ;;
  c ← the ctrl;
  payload ← lift (struct.pack_B 0x01);
  emit (CharWrite c payload true).

Definition KeypressSensor_enable : M unit :=
  SensorBase_enable ;;
  write_descr 0 0x01.

Definition KeypressSensorCC1352R_enable : M unit :=
  SensorBase_enable ;;
  write_descr 0 0x01 ;;
  write_descr 1 0x01.

(** [KeypressSensor.disable] and [KeypressSensorCC1352R.disable] *)
Definition KeypressSensor_disable : M unit :=
  d ← the char_descr;
  payload ← lift (struct.pack_bb 0x00 0x00);
  emit (DescWrite d payload true).

(** *** Decoders *)

Definition zeroC : Q := dec 27315 (-2).
Definition tRef : Q := dec 29815 (-2).
Definition Apoly : list Q := [dec 10 (-1); dec 175 (-5); dec (-1678) (-8)].
Definition Bpoly : list Q := [dec (-294) (-7); dec (-57) (-8); dec 463 (-11)].
Definition Cpoly : list Q := [dec 0 0; dec 10 (-1); dec 134 (-1)].

(** [math.pow(math.pow(tDie, 4.0) + quot, 0.25) - c]: a negative base with
    a fractional exponent is a math domain error. The inner power is within
    an ulp of [tDie^4]; the sign of the base is taken from the exact sum,
    which decides it unless the two terms cancel to within that ulp. *)
Definition root4_sub (tDie quot : double.t) (c : Q) : res pyfloat :=
  let q := (double.to_Q tDie ^ 4 + double.to_Q quot)%Q in
  if Qle_bool 0 q then Ok (FlRoot4Sub q c) else Raise ValueError.

Definition IRTemperatureSensor_read (dev : device) : M reading :=
  frame ← SensorBase_read dev;
  vs ← lift (struct.unpack [struct.h_; struct.h_] frame);
  self ← get;
  match vs with
  | [rawVobj; rawTamb] =>
      let tAmb := (double.of_Z rawTamb / double.lit 1280 (-1))%D in
      let Vobj := (double.lit 15625 (-11) * double.of_Z rawVobj)%D in
      let tDie := (tAmb + double.of_Q zeroC)%D in
      lift (pA ← calcPoly (double.of_Q <$> Apoly) (tDie - double.of_Q tRef)%D;
            let S := (double.of_Q (S0 self) * pA)%D in
            Vos ← calcPoly (double.of_Q <$> Bpoly) (tDie - double.of_Q tRef)%D;
            fObj ← calcPoly (double.of_Q <$> Cpoly) (Vobj - Vos)%D;
            quot ← double.fdiv fObj S;
            tObj_sub ← root4_sub tDie quot zeroC;
            Ok (RTuple [of_double tAmb; tObj_sub]))
  | _ => raise ValueError
  end.

Definition SCALE_LSB : Q := dec 3125 (-5).

Definition IRTemperatureSensorTMP007_read (dev : device) : M reading :=
  frame ← SensorBase_read dev;
  vs ← lift (struct.unpack [struct.h_; struct.h_] frame);
  match vs with
  | [rawTobj; rawTamb] =>
      let tObj := (double.of_Z (Z.shiftr rawTobj 2) * double.of_Q SCALE_LSB)%D in
      let tAmb := (double.of_Z (Z.shiftr rawTamb 2) * double.of_Q SCALE_LSB)%D in
      ret (RTuple [of_double tAmb; of_double tObj])
  | _ => raise ValueError
  end.

(** [round(struct.unpack('<f', self.data.read())[0], 2)]: the [read] of
    [TemperatureSensorHDC2010], [HumiditySensorHDC2010] and
    [OpticalSensorOPT3010]. *)
Definition float32_read (dev : device) : M reading :=
  frame ← SensorBase_read dev;
  v ← lift (unpack_f frame);
  ret (RFloat (round2 v)).

Fixpoint div_all (vs : list Z) (scale : Q) : res (list pyfloat) :=
  match vs with
  | [] => Ok []
  | val :: rest =>
      q ← fdiv (inject_Z val) scale;
      qs ← div_all rest scale;
      Ok (Fl q :: qs)
  end.

Definition AccelerometerSensor_read (dev : device) : M reading :=
  frame ← SensorBase_read dev;
  x_y_z ← lift (struct.unpack [struct.b_; struct.b_; struct.b_] frame);
  self ← get;
  qs ← lift (div_all x_y_z (scale self));
  ret (RTuple qs).

Definition HumiditySensor_read (dev : device) : M reading :=
  frame ← SensorBase_read dev;
  vs ← lift (struct.unpack [struct.H_; struct.H_] frame);
  match vs with
  | [rawT; rawH] =>
      let temp := (double.lit (-4685) (-2)
                   + double.lit 17572 (-2) * (double.of_Z rawT / double.lit 655360 (-1)))%D in
      let RH := (double.lit (-60) (-1)
                 + double.lit 1250 (-1)
                   * (double.of_Z (Z.land rawH 0xFFFC) / double.lit 655360 (-1)))%D in
      ret (RTuple [of_double temp; of_double RH])
  | _ => raise ValueError
  end.

Definition HumiditySensorHDC1000_read (dev : device) : M reading :=
  frame ← SensorBase_read dev;
  vs ← lift (struct.unpack [struct.H_; struct.H_] frame);
  match vs with
  | [rawT; rawH] =>
      let temp := (double.lit (-400) (-1)
                   + double.lit 1650 (-1) * (double.of_Z rawT / double.lit 655360 (-1)))%D in
      let RH := (double.lit 1000 (-1) * (double.of_Z rawH / double.lit 655360 (-1)))%D in
      ret (RTuple [of_double temp; of_double RH])
  | _ => raise ValueError
  end.

Definition MagnetometerSensor_read (dev : device) : M reading :=
  frame ← SensorBase_read dev;
  x_y_z ← lift (struct.unpack [struct.h_; struct.h_; struct.h_] frame);
  ret (RTuple ((λ v, of_double (double.lit 10000 (-1)
                                * (double.of_Z v / double.lit 327680 (-1)))%D) <$> x_y_z)).

Definition BarometerSensor_read (dev : device) : M reading :=
  frame ← SensorBase_read dev;
  vs ← lift (struct.unpack [struct.h_; struct.H_] frame);
  match vs with
  | [rawT; rawP] =>
      k ← the cal;
      let temp := ((double.of_Q (c1_s k) * double.of_Z rawT) + double.of_Q (c2_s k))%D in
      sens ← lift (calcPoly (double.of_Q <$> sensPoly k) (double.of_Z rawT));
      offs ← lift (calcPoly (double.of_Q <$> offsPoly k) (double.of_Z rawT));
      let pres := ((sens * double.of_Z rawP + offs)
                   / (double.lit 1000 (-1) * double.of_Z (Z.shiftl 1 14)))%D in
      ret (RTuple [of_double temp; of_double pres])
  | _ => raise ValueError
  end.

Definition BarometerSensorBMP280_read (dev : device) : M reading :=
  frame ← SensorBase_read dev;
  vs ← lift (struct.unpack (replicate 6 struct.B_) frame);
  match vs with
  | [tL; tM; tH; pL; pM; pH] =>
      let temp := (inject_Z (tH * 65536 + tM * 256 + tL) / 100)%Q in
      let press := (inject_Z (pH * 65536 + pM * 256 + pL) / 100)%Q in
      ret (RTuple [Fl temp; Fl press])
  | _ => raise ValueError
  end.

Definition GyroscopeSensor_read (dev : device) : M reading :=
  frame ← SensorBase_read dev;
  x_y_z ← lift (struct.unpack [struct.h_; struct.h_; struct.h_] frame);
  ret (RTuple ((λ v, of_double (double.lit 2500 (-1)
                                * (double.of_Z v / double.lit 327680 (-1)))%D) <$> x_y_z)).

Definition OpticalSensorOPT3001_read (dev : device) : M reading :=
  frame ← SensorBase_read dev;
  raw ← lift (struct.unpack1 struct.h_ frame);
  let m := Z.land raw 0xFFF in
  let e := Z.shiftr (Z.land raw 0xF000) 12 in
  ret (RFloat (of_double (double.lit 1 (-2) * double.of_Z (Z.shiftl m e))%D)).

(** [ord(self.data.read())]: the [read] of both battery classes. *)
Definition BatterySensor_read (dev : device) : M reading :=
  frame ← SensorBase_read dev;
  match frame with
  | [b] => ret (RInt (struct.byte_val b))
  | _ => raise TypeError
  end.

(** [read()]; a class that does not define [read] inherits
    [SensorBase.read], which returns the frame as it is. *)
Definition read (dev : device) : M reading :=
  self ← get;
  match class self with
  | IRTemperatureSensor => IRTemperatureSensor_read dev
  | IRTemperatureSensorTMP007 => IRTemperatureSensorTMP007_read dev
  | TemperatureSensorHDC2010 | HumiditySensorHDC2010
  | OpticalSensorOPT3010 => float32_read dev
  | AccelerometerSensor => AccelerometerSensor_read dev
  | HumiditySensor => HumiditySensor_read dev
  | HumiditySensorHDC1000 => HumiditySensorHDC1000_read dev
  | MagnetometerSensor => MagnetometerSensor_read dev
  | BarometerSensor => BarometerSensor_read dev
  | BarometerSensorBMP280 => BarometerSensorBMP280_read dev
  | GyroscopeSensor => GyroscopeSensor_read dev
  | OpticalSensorOPT3001 => OpticalSensorOPT3001_read dev
  | BatterySensor | BatterySensorCC1352R => BatterySensor_read dev
  | AccelerometerSensorADXL362 | MovementSensorMPU9250
  | KeypressSensor | KeypressSensorCC1352R =>
      frame ← SensorBase_read dev; ret (RBytes frame)
  end.

(** [enable()] of the classes whose [enable] takes no argument. *)
Definition enable (dev : device) : M unit :=
  self ← get;
  match class self with
  | AccelerometerSensorADXL362 => AccelerometerSensorADXL362_enable
  | BarometerSensor => BarometerSensor_enable dev
  | KeypressSensor => KeypressSensor_enable
  | KeypressSensorCC1352R => KeypressSensorCC1352R_enable
  | MovementSensorMPU9250 => raise TypeError   (* enable() lacks [bits] *)
  | _ => SensorBase_enable
  end.

Definition disable : M unit :=
  self ← get;
  match class self with
  | AccelerometerSensorADXL362 => AccelerometerSensorADXL362_disable
  | KeypressSensor | KeypressSensorCC1352R => KeypressSensor_disable
  | MovementSensorMPU9250 => raise TypeError   (* disable() lacks [bits] *)
  | _ => SensorBase_disable
  end.

End Sensor.

(** The three Gen2 drivers that are views of one [MovementSensorMPU9250]:
    each holds a reference [sensor] to the shared object and has no
    endpoints of its own. *)
Inductive facade_class : Type :=
| AccelerometerSensorMPU9250
| MagnetometerSensorMPU9250
| GyroscopeSensorMPU9250.

Module Facade.

(** The bits a view passes to [sensor.enable] and [sensor.disable]. *)
Definition bits (f : facade_class) : Z :=
  match f with
  | AccelerometerSensorMPU9250 => Z.lor Sensor.ACCEL_XYZ Sensor.ACCEL_RANGE_4G
  | MagnetometerSensorMPU9250 => Sensor.MAG_XYZ
  | GyroscopeSensorMPU9250 => Sensor.GYRO_XYZ
  end.

Definition scale (f : facade_class) : double.t :=
  match f with
  | AccelerometerSensorMPU9250 => double.lit 80 (-1) / double.lit 327680 (-1)
  | MagnetometerSensorMPU9250 => double.lit 49120 (-1) / double.of_Z 32760
  | GyroscopeSensorMPU9250 => double.lit 5000 (-1) / double.lit 655360 (-1)
  end.

(** [rawRead()[a:b]] *)
Definition slice (f : facade_class) (rawVals : list Z) : list Z :=
  match f with
  | AccelerometerSensorMPU9250 => take 3 (drop 3 rawVals)
  | MagnetometerSensorMPU9250 => take 3 (drop 6 rawVals)
  | GyroscopeSensorMPU9250 => take 3 (drop 0 rawVals)
  end.

(** The methods run on the shared object that [self.sensor] refers to. *)
Definition enable (f : facade_class) : Sensor.M unit :=
  Sensor.MovementSensorMPU9250_enable (bits f).

Definition disable (f : facade_class) : Sensor.M unit :=
  Sensor.MovementSensorMPU9250_disable (bits f).

Definition read (f : facade_class) (dev : device) : Sensor.M reading :=
  rawVals ← Sensor.MovementSensorMPU9250_rawRead dev;
  ret (RTuple ((λ v, of_double (double.of_Z v * scale f)%D) <$> slice f rawVals)).

End Facade.

(** ** SensorTag: generation detection and the driver registry *)

Definition AUTODETECT : string := "-".
Definition SENSORTAG_V1 : string := "v1".
Definition SENSORTAG_2650 : string := "CC2650".
Definition SENSORTAG_1352R : string := "CC1352R".

(** A driver object: an instance of a [SensorBase] subclass, or a view that
    holds the reference [sensor]. *)
Inductive object : Type :=
| Sensor (o : SensorBase)
| View (f : facade_class) (sensor : string).

(** The value of an attribute of the tag: [None] or a reference to a driver
    object. *)
Inductive value : Type :=
| PyNone
| Ref (r : string).

(** [attrs] holds the instance attributes that [__init__] assigned; a name
    that is not in it is an attribute the instance does not have. [heap]
    holds the driver objects; [__init__] allocates each of them under the
    name of the attribute it is first assigned to. *)
Record SensorTag : Type := {
  version : string;
  firmwareVersion : string;
  attrs : gmap string value;
  heap : gmap string object
}.

(** [key in svcs] *)
Definition contains (svcs : gmap UUID Service) (key : UUID) : bool :=
  bool_decide (is_Some (svcs !! key)).

(** The autodetection branch of [SensorTag.__init__]. *)
Definition detect (svcs : gmap UUID Service) : string :=
  if contains svcs (_TI_UUID 0xAA70) then
    if contains svcs (_TI_UUID 0xFFA0) then SENSORTAG_1352R
    else SENSORTAG_2650
  else SENSORTAG_V1.

(** [self.name = cls(self)] *)
Definition assign_new (name : string) (c : sensor_class) (t : SensorTag) : SensorTag :=
  {| version := version t; firmwareVersion := firmwareVersion t;
     attrs := <[name := Ref name]> (attrs t);
     heap := <[name := Sensor (new c (firmwareVersion t))]> (heap t) |}.

(** [self.name = cls(self._mpu9250)] *)
Definition assign_view (name : string) (f : facade_class) (t : SensorTag) : SensorTag :=
  {| version := version t; firmwareVersion := firmwareVersion t;
     attrs := <[name := Ref name]> (attrs t);
     heap := <[name := View f "_mpu9250"]> (heap t) |}.

(** [self.name = None] *)
Definition assign_None (name : string) (t : SensorTag) : SensorTag :=
  {| version := version t; firmwareVersion := firmwareVersion t;
     attrs := <[name := PyNone]> (attrs t);
     heap := heap t |}.

(** [SensorTag.__init__]. [version] is the class attribute ([AUTODETECT]
    unless a subclass sets it), [svcs] is what [discoverServices()]
    returns, [fwVers] the decoded values of the firmware revision
    characteristics found. *)
Definition SensorTag__init__ (version : string) (svcs : gmap UUID Service)
    (fwVers : list string) : SensorTag :=
  let version := if String.eqb version AUTODETECT then detect svcs else version in
  let firmwareVersion :=
    match fwVers with
    | fw :: _ => fw
    | [] => ""
    end in
  let self := {| version := version; firmwareVersion := firmwareVersion;
                 attrs := ∅; heap := ∅ |} in
  if String.eqb version SENSORTAG_V1 then
    assign_None "lightmeter"
      (assign_new "keypress" KeypressSensor
      (assign_new "gyroscope" GyroscopeSensor
      (assign_new "barometer" BarometerSensor
      (assign_new "magnetometer" MagnetometerSensor
      (assign_new "humidity" HumiditySensor
      (assign_new "accelerometer" AccelerometerSensor
      (assign_new "IRtemperature" IRTemperatureSensor self)))))))
  else if String.eqb version SENSORTAG_2650 then
    assign_new "battery" BatterySensor
      (assign_new "lightmeter" OpticalSensorOPT3001
      (assign_new "keypress" KeypressSensor
      (assign_view "gyroscope" GyroscopeSensorMPU9250
      (assign_new "barometer" BarometerSensorBMP280
      (assign_view "magnetometer" MagnetometerSensorMPU9250
      (assign_new "humidity" HumiditySensorHDC1000
      (assign_view "accelerometer" AccelerometerSensorMPU9250
      (assign_new "IRtemperature" IRTemperatureSensorTMP007
      (assign_new "_mpu9250" MovementSensorMPU9250 self)))))))))
  else if String.eqb version SENSORTAG_1352R then
    assign_new "battery" BatterySensorCC1352R
      (assign_new "lightmeter" OpticalSensorOPT3010
      (assign_new "keypress" KeypressSensorCC1352R
      (assign_None "gyroscope"
      (assign_None "barometer"
      (assign_None "magnetometer"
      (assign_new "humidity" HumiditySensorHDC2010
      (assign_new "accelerometer" AccelerometerSensorADXL362
      (assign_new "IRtemperature" TemperatureSensorHDC2010
      (assign_None "_mpu9250" self)))))))))
  else self.

Module Tag.

Definition M := Py SensorTag effect.

(** [tag.name] *)
Definition getattr (name : string) : M value :=
  self ← get;
  match attrs self !! name with
  | Some v => ret v
  | None => raise AttributeError
  end.

(** A method of the [SensorBase] object stored at [r], run in place. *)
Definition at_ {A} (r : string) (m : Sensor.M A) : M A :=
  fun t =>
    match heap t !! r with
    | Some (Sensor o) =>
        match m o with
        | (res, o', trace) =>
            (res,
             {| version := version t; firmwareVersion := firmwareVersion t;
                attrs := attrs t; heap := <[r := Sensor o']> (heap t) |},
             trace)
        end
    | _ => (Raise AttributeError, t, [])
    end.

(** [obj.enable()], [obj.read()], [obj.disable()] on the object that the
    reference [r] denotes. *)
Definition enable (dev : device) (r : string) : M unit :=
  self ← get;
  match heap self !! r with
  | Some (Sensor _) => at_ r (Sensor.enable dev)
  | Some (View f sensor) => at_ sensor (Facade.enable f)
  | None => raise AttributeError
  end.

Definition read (dev : device) (r : string) : M reading :=
  self ← get;
  match heap self !! r with
  | Some (Sensor _) => at_ r (Sensor.read dev)
  | Some (View f sensor) => at_ sensor (Facade.read f dev)
  | None => raise AttributeError
  end.

Definition disable (r : string) : M unit :=
  self ← get;
  match heap self !! r with
  | Some (Sensor _) => at_ r Sensor.disable
  | Some (View f sensor) => at_ sensor (Facade.disable f)
  | None => raise AttributeError
  end.

(** [enable_tag(tag_name, tagI)] *)
Definition enable_tag (dev : device) (tag_name : string) (tagI : value) : M unit :=
  match tagI with
  | PyNone => emit (Print ("Warning : no " +:+ " " +:+ tag_name +:+ " " +:+ " on this device"))
  | Ref r => enable dev r
  end.

(** One enabling statement of [main], [enable_tag(tag_name, tag.name)]:
    the argument is evaluated, then the function is called. *)
Definition main_enable (dev : device) (tag_name name : string) : M unit :=
  tagI ← getattr name;
  enable_tag dev tag_name tagI.

(** One polling statement of [main] for a selected role,
    [if tag.name is not None: rnd.render(label, tag.name.read(), unit)];
    the result is the reading handed to the renderer, if any. The
    accelerometer statement also requires a version other than
    [SENSORTAG_1352R]. *)
Definition main_poll (dev : device) (name : string) : M (option reading) :=
  tagI ← getattr name;
  self ← get;
  match tagI with
  | PyNone => ret None
  | Ref r =>
      if String.eqb name "accelerometer" && String.eqb (version self) SENSORTAG_1352R
      then ret None
      else (v ← read dev r; ret (Some v))
  end.

End Tag.

(** The roles that [main] can select, with the name [main] warns with and
    the attribute of the tag that it passes. *)
Inductive role : Type :=
| temperature | humidity | barometer | accelerometer | magnetometer
| gyroscope | battery | keypress | light.

Definition role_attr (r : role) : string :=
  match r with
  | temperature => "IRtemperature"
  | humidity => "humidity"
  | barometer => "barometer"
  | accelerometer => "accelerometer"
  | magnetometer => "magnetometer"
  | gyroscope => "gyroscope"
  | battery => "battery"
  | keypress => "keypress"
  | light => "lightmeter"
  end.

Definition role_tag_name (r : role) : string :=
  match r with
  | temperature => "temperature"
  | humidity => "humidity"
  | barometer => "barometer"
  | accelerometer => "accelerometer"
  | magnetometer => "magnetometer"
  | gyroscope => "giroscope"
  | battery => "battery"
  | keypress => "key press"
  | light => "Lightmeter"
  end.

(** ** The control of [main] *)

Instance role_eq_dec : EqDecision role.
Proof. solve_decision. Defined.

(** The poll loop of [main], reduced to its control: [counter] starts at 1;
    each turn polls the selected sensors, leaves the loop when
    [counter >= count and count != 0], and otherwise increments [counter]
    and waits for notifications. The result is the number of polls and of
    waits; [None] when [fuel] turns do not reach the [break]. *)
Fixpoint main_loop (fuel : nat) (count counter : Z) : option (Z * Z) :=
  match fuel with
  | O => None
  | S fuel' =>
      if (counter >=? count) && negb (count =? 0) then Some (1, 0)
      else
        match main_loop fuel' count (counter + 1) with
        | Some (polls, waits) => Some (polls + 1, waits + 1)
        | None => None
        end
  end.

(** The statement that follows the loop:
    [if tag.version == SENSORTAG_1352R and tag.accelerometer:
         tag.accelerometer.disable()]. *)
Definition main_exit : Tag.M unit :=
  self ← get;
  if String.eqb (version self) SENSORTAG_1352R then
    tagI ← Tag.getattr "accelerometer";
    match tagI with
    | PyNone => mret tt
    | Ref r => Tag.disable r
    end
  else mret tt.

(** ** Notions used to state the properties *)

(** The endpoints of a driver object once [SensorBase.enable] has run: an
    endpoint that was already bound is kept. *)
Definition bound_service (o : SensorBase) : Service :=
  default (ServiceOf (svcUUID (class o))) (service o).
Definition bound_ctrl (o : SensorBase) : Characteristic :=
  default (CharOf (bound_service o) (ctrlUUID (class o))) (ctrl o).
Definition bound_data (o : SensorBase) : Characteristic :=
  default (CharOf (bound_service o) (dataUUID (class o))) (data o).
Definition bind_endpoints (o : SensorBase) : SensorBase :=
  with_data (Some (bound_data o))
    (with_ctrl (Some (bound_ctrl o))
       (with_service (Some (bound_service o)) o)).

(** The calibration characteristic that [BarometerSensor.enable] resolves. *)
Definition cal_char (o : SensorBase) : Characteristic :=
  CharOf (bound_service o) (Some calUUID).

(** The frame width that the [read] of a class unpacks ([None]: the class
    has no decoder of its own and returns the frame whatever its length). *)
Definition frame_width (c : sensor_class) : option nat :=
  match c with
  | IRTemperatureSensor | IRTemperatureSensorTMP007 => Some 4%nat
  | TemperatureSensorHDC2010 | HumiditySensorHDC2010 | OpticalSensorOPT3010 => Some 4%nat
  | AccelerometerSensor => Some 3%nat
  | HumiditySensor | HumiditySensorHDC1000 => Some 4%nat
  | MagnetometerSensor | GyroscopeSensor => Some 6%nat
  | BarometerSensor => Some 4%nat
  | BarometerSensorBMP280 => Some 6%nat
  | OpticalSensorOPT3001 => Some 2%nat
  | BatterySensor | BatterySensorCC1352R => Some 1%nat
  | AccelerometerSensorADXL362 | MovementSensorMPU9250
  | KeypressSensor | KeypressSensorCC1352R => None
  end.



(** The frame of the last delivery on channel [h], if any. *)
Fixpoint last_frame (h : Z) (inputs : list (Z * list byte)) : option (list byte) :=
  match inputs with
  | [] => None
  | (hnd, data) :: rest =>
      match last_frame h rest with
      | Some d => Some d
      | None => if hnd =? h then Some data else None
      end
  end.

(** The exception that a class raises on a frame of the wrong width:
    [ord()] raises TypeError, [struct.unpack] raises [struct.error]. *)
Definition width_error (c : sensor_class) : exn :=
  match c with
  | BatterySensor | BatterySensorCC1352R => TypeError
  | _ => StructError
  end.

(** The fields of a frame by position: the byte [i], unsigned and signed,
    and the little-endian 16-bit word [i], unsigned and signed (two's
    complement). *)
Definition ubyte (frame : list byte) (i : nat) : Z :=
  struct.byte_val (nth i frame Byte.x00).
Definition sbyte (frame : list byte) (i : nat) : Z :=
  if 128 <=? ubyte frame i then ubyte frame i - 256 else ubyte frame i.
Definition uword (frame : list byte) (i : nat) : Z :=
  ubyte frame (2 * i) + 256 * ubyte frame (2 * i + 1).
Definition sword (frame : list byte) (i : nat) : Z :=
  if 32768 <=? uword frame i then uword frame i - 65536 else uword frame i.


(** The Gen1 temperature and relative humidity for the words of the frame,
    as the code computes them. *)
Definition gen1_temp (rawT : Z) : double.t :=
  (double.lit (-4685) (-2)
   + double.lit 17572 (-2) * (double.of_Z rawT / double.lit 655360 (-1)))%D.
Definition gen1_RH (rawH : Z) : double.t :=
  (double.lit (-60) (-1)
   + double.lit 1250 (-1)
     * (double.of_Z (Z.land rawH 0xFFFC) / double.lit 655360 (-1)))%D.


(** The light reading for the shifted mantissa [n], as the code computes
    it. *)
Definition opt3001_lux_of (n : Z) : double.t := (double.lit 1 (-2) * double.of_Z n)%D.


(** The index, in the frame of the shared reader, of the first 16-bit word
    of the slice that a view takes. *)
Definition slice_start (f : facade_class) : nat :=
  match f with
  | GyroscopeSensorMPU9250 => 0
  | AccelerometerSensorMPU9250 => 3
  | MagnetometerSensorMPU9250 => 6
  end.

(** The component [i] of the reading of a view. *)
Definition view_component (f : facade_class) (frame : list byte) (i : nat) : pyfloat :=
  of_double (double.of_Z (sword frame (slice_start f + i)) * Facade.scale f)%D.

(** *** Exhaustive checks

    The relative humidity of the Gen1 sensor depends on a 14-bit field: its
    numeric properties are decided value by value. *)

(** [f] holds of the [2^k] integers from [lo] on. *)
Fixpoint allz (f : Z → bool) (k : nat) (lo : Z) : bool :=
  match k with
  | O => f lo
  | S k' => allz f k' lo && allz f k' (lo + 2 ^ Z.of_nat k')
  end.

(** The Gen1 relative humidity for the masked word [4 * j]: the real value
    of the formula, within [-6, 119). *)
Definition RH_ok (c0 c1 c2 : double.t) (j : Z) : bool :=
  match of_double (c0 + c1 * (double.of_Z (4 * j) / c2))%D with
  | Fl q => Qeq_bool q (-6 + 125 * (inject_Z (4 * j) / 65536))
            && Qle_bool (-6) q && negb (Qle_bool 119 q)
  | _ => false
  end.

(** A device on which every characteristic holds the same frame. *)
Definition const_dev (frame : list byte) : device := fun _ => frame.

(** * Properties *)

Ltac py_unfold :=
  unfold mbind, mret, Py_bind, Py_ret, res_mbind, res_ret, res_bind,
    bind, ret, lift, get, put, emit, when, raise in *.

Ltac py_simpl := repeat progress (py_unfold; cbv beta iota zeta).

(** ** [struct] *)

Lemma unpack1_B_byte (b : byte) :
  struct.unpack1 struct.B_ [b] = Ok (struct.byte_val b).
Proof.
  unfold struct.unpack1, struct.unpack, res_bind; simpl.
  unfold struct.field; simpl. f_equal; lia.
Qed.

Lemma unpack1_h_short (data : list byte) :
  length data = 2%nat →
  struct.unpack1 struct.h_ data = Ok (struct.field struct.h_ data).
Proof.
  intros Hlen.
  destruct data as [|b0 [|b1 [|]]]; simpl in Hlen; try discriminate.
  reflexivity.
Qed.

Lemma byte_val_range (b : byte) : 0 <= struct.byte_val b <= 255.
Proof. destruct b; unfold struct.byte_val; simpl; lia. Qed.

(** ** KeypressDelegate *)

Lemma land_3_cases (a : Z) :
  Z.land a 3 = 0 ∨ Z.land a 3 = 1 ∨ Z.land a 3 = 2 ∨ Z.land a 3 = 3.
Proof.
  assert (H : Z.land a 3 = a mod 4).
  { change 3 with (Z.ones 2). rewrite Z.land_ones by lia. reflexivity. }
  rewrite H. pose proof (Z.mod_pos_bound a 4 eq_refl). lia.
Qed.

Lemma keypress_desc_defined (a : Z) :
  Z.land a KeypressDelegate.ALL_BUTTONS ≠ 0 →
  KeypressDelegate._button_desc !! Z.land a KeypressDelegate.ALL_BUTTONS
  = Some (default "" (KeypressDelegate._button_desc
                        !! Z.land a KeypressDelegate.ALL_BUTTONS)).
Proof.
  change KeypressDelegate.ALL_BUTTONS with 3. intros Hne.
  destruct (land_3_cases a) as [H|[H|[H|H]]]; rewrite H in *;
    [congruence | reflexivity ..].
Qed.

(** One delivery of a one-byte sample, in closed form. *)
Lemma keypress_handle_byte (hnd : Z) (b : byte) (s : KeypressDelegate.state) :
  let val := struct.byte_val b in
  let down := KeypressDelegate.spec_down (KeypressDelegate.lastVal s) val
                KeypressDelegate.ALL_BUTTONS in
  let up := KeypressDelegate.spec_up (KeypressDelegate.lastVal s) val
              KeypressDelegate.ALL_BUTTONS in
  KeypressDelegate.handleNotification hnd [b] s
  = (Ok tt, {| KeypressDelegate.lastVal := val |},
     (if down =? 0 then [] else [KeypressDelegate.DOWN down])
       ++ (if up =? 0 then [] else [KeypressDelegate.UP up])).
Proof.
  intros val down up.
  unfold KeypressDelegate.handleNotification.
  rewrite unpack1_B_byte. fold val.
  subst down up. unfold KeypressDelegate.spec_down, KeypressDelegate.spec_up.
  rewrite (Z.land_comm (Z.lnot (KeypressDelegate.lastVal s)) val).
  rewrite (Z.land_comm (KeypressDelegate.lastVal s) (Z.lnot val)).
  unfold KeypressDelegate.onButtonDown, KeypressDelegate.onButtonUp,
    KeypressDelegate.desc, KeypressDelegate.DOWN, KeypressDelegate.UP.
  py_simpl.
  set (down := Z.land (Z.land val (Z.lnot (KeypressDelegate.lastVal s)))
                 KeypressDelegate.ALL_BUTTONS).
  set (up := Z.land (Z.land (Z.lnot val) (KeypressDelegate.lastVal s))
               KeypressDelegate.ALL_BUTTONS).
  destruct (down =? 0) eqn:Ed; cbn [negb]; py_simpl.
  - fold up. destruct (up =? 0) eqn:Eu; cbn [negb]; py_simpl.
    + reflexivity.
    + unfold up at 1. rewrite keypress_desc_defined by (apply Z.eqb_neq; exact Eu).
      py_simpl. reflexivity.
  - unfold down at 1. rewrite keypress_desc_defined by (apply Z.eqb_neq; exact Ed).
    py_simpl. fold up. destruct (up =? 0) eqn:Eu; cbn [negb]; py_simpl.
    + reflexivity.
    + unfold up at 1. rewrite keypress_desc_defined by (apply Z.eqb_neq; exact Eu).
      py_simpl. reflexivity.
Qed.

Lemma spec_edges_unchanged (last current mask : Z) :
  Z.land current mask = Z.land last mask →
  KeypressDelegate.spec_down last current mask = 0
  ∧ KeypressDelegate.spec_up last current mask = 0.
Proof.
  intros Heq. unfold KeypressDelegate.spec_down, KeypressDelegate.spec_up. split.
  - rewrite <- Z.land_assoc, Heq, Z.land_assoc.
    rewrite (Z.land_comm (Z.lnot last)), Z.land_lnot_diag. apply Z.land_0_l.
  - rewrite (Z.land_comm last), <- Z.land_assoc, <- Heq, Z.land_assoc.
    rewrite (Z.land_comm (Z.lnot current)), Z.land_lnot_diag. apply Z.land_0_l.
Qed.

(** C3. From last mask 0 the samples 0x00, 0x02, 0x00 yield DOWN(0x02) then
    UP(0x02); a sample whose masked value equals the previous one yields
    nothing; and what a sample yields is given by
    down = (~last & current) & mask and up = (last & ~current) & mask. *)
Theorem keypress_edge_detection :
  (∀ h1 h2 h3 : Z,
     deliver_keypress [(h1, [Byte.x00]); (h2, [Byte.x02]); (h3, [Byte.x00])]
       KeypressDelegate.__init__
     = ([[]; [KeypressDelegate.DOWN 0x02]; [KeypressDelegate.UP 0x02]],
        Ok tt, {| KeypressDelegate.lastVal := 0 |}))
  ∧ KeypressDelegate.DOWN 0x02 = "** Left button DOWN"
  ∧ KeypressDelegate.UP 0x02 = "** Left button UP"
  ∧ (∀ (hnd : Z) (b : byte) (s : KeypressDelegate.state),
       Z.land (struct.byte_val b) KeypressDelegate.ALL_BUTTONS
       = Z.land (KeypressDelegate.lastVal s) KeypressDelegate.ALL_BUTTONS →
       snd (KeypressDelegate.handleNotification hnd [b] s) = [])
  ∧ (∀ (hnd : Z) (b : byte) (s : KeypressDelegate.state),
       let last := KeypressDelegate.lastVal s in
       let current := struct.byte_val b in
       let down := KeypressDelegate.spec_down last current KeypressDelegate.ALL_BUTTONS in
       let up := KeypressDelegate.spec_up last current KeypressDelegate.ALL_BUTTONS in
       KeypressDelegate.handleNotification hnd [b] s
       = (Ok tt, {| KeypressDelegate.lastVal := current |},
          (if down =? 0 then [] else [KeypressDelegate.DOWN down])
            ++ (if up =? 0 then [] else [KeypressDelegate.UP up]))).
Proof.
  split; [| split; [| split; [| split]]].
  - intros h1 h2 h3. unfold deliver_keypress, feed. cbn [fst snd].
    rewrite !keypress_handle_byte. reflexivity.
  - reflexivity.
  - reflexivity.
  - intros hnd b s Heq. rewrite keypress_handle_byte. cbn [snd].
    destruct (spec_edges_unchanged _ _ _ Heq) as [-> ->]. reflexivity.
  - intros hnd b s. apply keypress_handle_byte.
Qed.

Lemma keypress_edge_detection_witness :
  snd (KeypressDelegate.handleNotification 7 [Byte.x02] {| KeypressDelegate.lastVal := 0x06 |}) = [].
Proof.
  apply (proj1 (proj2 (proj2 (proj2 keypress_edge_detection)))).
  reflexivity.
Defined.

(** ** SensorDelegate *)

Ltac sd_simpl :=
  repeat progress (py_unfold; cbv beta iota zeta;
                   cbn [SensorDelegate.x SensorDelegate.y SensorDelegate.z
                        SensorDelegate.lastVal]).

Section SensorDelegateProofs.
Import SensorDelegate.

Ltac sensor_unfold :=
  unfold handleNotification, set_x, set_y, set_z, upd_x, upd_y, upd_z, attr, onButtonDown,
    onButtonUp, onButtonHold, desc.

Lemma handle_x (data : list byte) (s : state) :
  handleNotification 110 data s
  = match struct.unpack1 struct.h_ data with
    | Ok v => (Ok tt, upd_x v s, [])
    | Raise e => (Raise e, s, [])
    end.
Proof.
  sensor_unfold. change (110 =? 110) with true. change (110 =? 114) with false.
  change (110 =? 118) with false. change (110 =? 90) with false.
  change (110 =? 94) with false. py_simpl.
  destruct (struct.unpack1 struct.h_ data); py_simpl; reflexivity.
Qed.

Lemma handle_y (data : list byte) (s : state) :
  handleNotification 114 data s
  = match struct.unpack1 struct.h_ data with
    | Ok v => (Ok tt, upd_y v s, [])
    | Raise e => (Raise e, s, [])
    end.
Proof.
  sensor_unfold. change (114 =? 110) with false. change (114 =? 114) with true.
  change (114 =? 118) with false. change (114 =? 90) with false.
  change (114 =? 94) with false. py_simpl.
  destruct (struct.unpack1 struct.h_ data); py_simpl; reflexivity.
Qed.

Lemma handle_z (data : list byte) (s : state) :
  handleNotification 118 data s
  = match struct.unpack1 struct.h_ data with
    | Ok v =>
        match x s, y s with
        | Some vx, Some vy =>
            (Ok tt, upd_z v s,
             [Render "Accelerometer: "
                (str vx +:+ "," +:+ str vy +:+ "," +:+ str v) ""])
        | _, _ => (Raise AttributeError, upd_z v s, [])
        end
    | Raise e => (Raise e, s, [])
    end.
Proof.
  sensor_unfold. change (118 =? 110) with false. change (118 =? 114) with false.
  change (118 =? 118) with true. change (118 =? 90) with false.
  change (118 =? 94) with false. py_simpl.
  destruct (struct.unpack1 struct.h_ data); py_simpl; [|reflexivity].
  unfold upd_z. destruct (x s), (y s); sd_simpl; reflexivity.
Qed.

(** A delivery on a key channel: [but] is 1 on channel 90, 2 on 94. *)
Lemma handle_key (hnd but : Z) (data : list byte) (s : state) :
  (hnd = 90 ∧ but = 1) ∨ (hnd = 94 ∧ but = 2) →
  handleNotification hnd data s
  = match struct.unpack1 struct.B_ data with
    | Ok val =>
        (Ok tt, s,
         if val =? 0x01 then [Render "Key pressed: " (default "" (_button_desc !! but) +:+ " DOWN") ""]
         else if val =? 0x00 then [Render "Key pressed: " (default "" (_button_desc !! but) +:+ " UP") ""]
         else if val =? 0xB1 then [Render "Key pressed: " (default "" (_button_desc !! but) +:+ " HOLD") ""]
         else [])
    | Raise e => (Raise e, s, [])
    end.
Proof.
  intros [[-> ->]|[-> ->]]; sensor_unfold; py_simpl.
  - change (90 =? 110) with false. change (90 =? 114) with false.
    change (90 =? 118) with false. change (90 =? 90) with true.
    change (90 =? 94) with false. py_simpl. change (negb (1 =? 0)) with true.
    py_simpl.
    destruct (struct.unpack1 struct.B_ data) as [val|e]; py_simpl; [|reflexivity].
    destruct (val =? 1) eqn:E1.
    + apply Z.eqb_eq in E1; subst val. reflexivity.
    + destruct (val =? 0) eqn:E0.
      * apply Z.eqb_eq in E0; subst val. reflexivity.
      * destruct (val =? 177) eqn:E2; reflexivity.
  - change (94 =? 110) with false. change (94 =? 114) with false.
    change (94 =? 118) with false. change (94 =? 90) with false.
    change (94 =? 94) with true. py_simpl. change (negb (2 =? 0)) with true.
    py_simpl.
    destruct (struct.unpack1 struct.B_ data) as [val|e]; py_simpl; [|reflexivity].
    destruct (val =? 1) eqn:E1.
    + apply Z.eqb_eq in E1; subst val. reflexivity.
    + destruct (val =? 0) eqn:E0.
      * apply Z.eqb_eq in E0; subst val. reflexivity.
      * destruct (val =? 177) eqn:E2; reflexivity.
Qed.

Lemma handle_other (hnd : Z) (data : list byte) (s : state) :
  hnd ≠ 110 → hnd ≠ 114 → hnd ≠ 118 → hnd ≠ 90 → hnd ≠ 94 →
  handleNotification hnd data s = (Ok tt, s, []).
Proof.
  intros H1 H2 H3 H4 H5. sensor_unfold.
  apply Z.eqb_neq in H1, H2, H3, H4, H5. rewrite H1, H2, H3, H4, H5.
  py_simpl. reflexivity.
Qed.

Lemma hnd_cases (hnd : Z) :
  hnd = 110 ∨ hnd = 114 ∨ hnd = 118 ∨ hnd = 90 ∨ hnd = 94
  ∨ (hnd ≠ 110 ∧ hnd ≠ 114 ∧ hnd ≠ 118 ∧ hnd ≠ 90 ∧ hnd ≠ 94).
Proof. lia. Qed.

Lemma sensor_at_most_one (hnd : Z) (data : list byte) (s : state) :
  (length (snd (handleNotification hnd data s)) ≤ 1)%nat.
Proof.
  destruct (hnd_cases hnd) as [->|[->|[->|[->|[->|(?&?&?&?&?)]]]]].
  - rewrite handle_x. destruct (struct.unpack1 _ _); simpl; lia.
  - rewrite handle_y. destruct (struct.unpack1 _ _); simpl; lia.
  - rewrite handle_z. destruct (struct.unpack1 _ _); [|simpl; lia].
    destruct (x s), (y s); simpl; lia.
  - rewrite (handle_key 90 1) by auto.
    destruct (struct.unpack1 _ _) as [val|]; [|simpl; lia]. cbn [snd].
    destruct (val =? 1), (val =? 0), (val =? 177); simpl; lia.
  - rewrite (handle_key 94 2) by auto.
    destruct (struct.unpack1 _ _) as [val|]; [|simpl; lia]. cbn [snd].
    destruct (val =? 1), (val =? 0), (val =? 177); simpl; lia.
  - rewrite handle_other by assumption. simpl; lia.
Qed.

Lemma keypress_at_most_two (hnd : Z) (data : list byte) (s : KeypressDelegate.state) :
  (length (snd (KeypressDelegate.handleNotification hnd data s)) ≤ 2)%nat.
Proof.
  destruct data as [|b [|b' rest]].
  - simpl; lia.
  - rewrite keypress_handle_byte. cbn [snd].
    destruct (_ =? 0), (_ =? 0); simpl; lia.
  - simpl; lia.
Qed.

(** C2, as amended. One delivery to the Gen3 dispatcher emits at most one
    event; one delivery to the Gen1/2 keypress dispatcher emits at most two
    (a DOWN and then an UP, when one button goes down in the sample in which
    the other goes up). Both handlers are functions of the prior state and
    the input alone. *)
Theorem handle_emits_boundedly (hnd : Z) (data : list byte) :
  (∀ s : SensorDelegate.state,
     (length (snd (SensorDelegate.handleNotification hnd data s)) ≤ 1)%nat)
  ∧ (∀ s : KeypressDelegate.state,
       (length (snd (KeypressDelegate.handleNotification hnd data s)) ≤ 2)%nat).
Proof.
  split; intros s; [apply sensor_at_most_one | apply keypress_at_most_two].
Qed.

(** C2 fails as stated: with the right button held (last mask 0x01), the
    sample 0x02 makes the Gen1/2 dispatcher emit two events in one call. *)
Lemma handle_at_most_one_counterexample :
  snd (KeypressDelegate.handleNotification 0 [Byte.x02]
         {| KeypressDelegate.lastVal := 0x01 |})
  = ["** Left button DOWN"; "** Right button UP"]
  ∧ ¬ (length (snd (KeypressDelegate.handleNotification 0 [Byte.x02]
                      {| KeypressDelegate.lastVal := 0x01 |})) ≤ 1)%nat.
Proof.
  assert (Hrun : snd (KeypressDelegate.handleNotification 0 [Byte.x02]
                        {| KeypressDelegate.lastVal := 0x01 |})
                 = ["** Left button DOWN"; "** Right button UP"])
    by reflexivity.
  split; [exact Hrun | rewrite Hrun; simpl; lia].
Qed.

(** C1. From any prior state, x then y then z (two bytes each) emits exactly
    one vector event, and emits it while handling z; deliveries on the x and
    y channels alone emit nothing, whatever their number and order. *)
Theorem accelerometer_fan_in :
  (∀ (s : state) (dx dy dz : list byte),
     length dx = 2%nat → length dy = 2%nat → length dz = 2%nat →
     let vx := struct.field struct.h_ dx in
     let vy := struct.field struct.h_ dy in
     let vz := struct.field struct.h_ dz in
     deliver_sensor [(X_HND, dx); (Y_HND, dy); (Z_HND, dz)] s
     = ([[]; [];
         [Render "Accelerometer: " (str vx +:+ "," +:+ str vy +:+ "," +:+ str vz) ""]],
        Ok tt,
        {| x := Some vx; y := Some vy; z := Some vz; lastVal := lastVal s |}))
  ∧ (∀ (s : state) (inputs : list (Z * list byte)),
       Forall (λ i, fst i = X_HND ∨ fst i = Y_HND) inputs →
       Forall (λ t, t = []) (fst (fst (deliver_sensor inputs s)))).
Proof.
  split.
  - intros s dx dy dz Hx Hy Hz vx vy vz.
    unfold deliver_sensor, feed, X_HND, Y_HND, Z_HND. cbn [fst snd].
    rewrite handle_x, (unpack1_h_short dx Hx).
    rewrite handle_y, (unpack1_h_short dy Hy).
    rewrite handle_z, (unpack1_h_short dz Hz).
    reflexivity.
  - intros s inputs Hxy. revert s.
    induction Hxy as [|[hnd data] rest Hhd _ IH]; intros s.
    + constructor.
    + unfold deliver_sensor in *. cbn [feed fst snd] in *.
      unfold X_HND, Y_HND in Hhd.
      assert (Hstep : ∃ r s1, handleNotification hnd data s = (r, s1, [])).
      { destruct Hhd as [->| ->].
        - rewrite handle_x. destruct (struct.unpack1 _ _); eauto.
        - rewrite handle_y. destruct (struct.unpack1 _ _); eauto. }
      destruct Hstep as (r & s1 & ->).
      destruct r as [[]|e].
      * specialize (IH s1).
        destruct (feed _ rest s1) as [[ts r'] s2]. cbn [fst] in *.
        constructor; [reflexivity | exact IH].
      * cbn [fst]. repeat constructor.
Qed.

Lemma accelerometer_fan_in_witness :
  deliver_sensor [(X_HND, [Byte.x01; Byte.x00]); (Y_HND, [Byte.xff; Byte.xff]);
                  (Z_HND, [Byte.x00; Byte.x80])] __init__
  = ([[]; []; [Render "Accelerometer: " "1,-1,-32768" ""]], Ok tt,
     {| x := Some 1; y := Some (-1); z := Some (-32768); lastVal := 0 |})
  ∧ Forall (λ t : list render_call, t = [])
      (fst (fst (deliver_sensor [(Y_HND, [Byte.x01; Byte.x00]); (X_HND, [Byte.x02; Byte.x00])]
                   __init__))).
Proof.
  split.
  - exact (proj1 accelerometer_fan_in __init__ [Byte.x01; Byte.x00]
             [Byte.xff; Byte.xff] [Byte.x00; Byte.x80] eq_refl eq_refl eq_refl).
  - apply (proj2 accelerometer_fan_in).
    constructor; [right; reflexivity|].
    constructor; [left; reflexivity|].
    constructor.
Defined.

(** A delivery on a channel other than x leaves the buffered x as it is. *)
Lemma handle_keeps_x (hnd : Z) (data : list byte) (s : state) :
  hnd ≠ X_HND → x (snd (fst (handleNotification hnd data s))) = x s.
Proof.
  unfold X_HND. intros Hne.
  destruct (hnd_cases hnd) as [->|[->|[->|[->|[->|(?&?&?&?&?)]]]]];
    [congruence | | | | |].
  - rewrite handle_y. destruct (struct.unpack1 _ _); reflexivity.
  - rewrite handle_z. destruct (struct.unpack1 _ _); [|reflexivity].
    unfold upd_z; destruct (x s), (y s); reflexivity.
  - rewrite (handle_key 90 1) by auto. destruct (struct.unpack1 _ _); reflexivity.
  - rewrite (handle_key 94 2) by auto. destruct (struct.unpack1 _ _); reflexivity.
  - rewrite handle_other by assumption. reflexivity.
Qed.

Lemma handle_keeps_y (hnd : Z) (data : list byte) (s : state) :
  hnd ≠ Y_HND → y (snd (fst (handleNotification hnd data s))) = y s.
Proof.
  unfold Y_HND. intros Hne.
  destruct (hnd_cases hnd) as [->|[->|[->|[->|[->|(?&?&?&?&?)]]]]];
    [| congruence | | | |].
  - rewrite handle_x. destruct (struct.unpack1 _ _); reflexivity.
  - rewrite handle_z. destruct (struct.unpack1 _ _); [|reflexivity].
    unfold upd_z; destruct (x s), (y s); reflexivity.
  - rewrite (handle_key 90 1) by auto. destruct (struct.unpack1 _ _); reflexivity.
  - rewrite (handle_key 94 2) by auto. destruct (struct.unpack1 _ _); reflexivity.
  - rewrite handle_other by assumption. reflexivity.
Qed.

(** An attribute that only its own channel assigns is untouched by a run of
    deliveries on other channels. *)
Lemma deliver_keeps (f : state → option Z) (h : Z) (inputs : list (Z * list byte)) :
  (∀ hnd data s, hnd ≠ h → f (snd (fst (handleNotification hnd data s))) = f s) →
  h ∉ (fst <$> inputs) →
  ∀ s, f (snd (deliver_sensor inputs s)) = f s.
Proof.
  intros Hkeep. unfold deliver_sensor.
  induction inputs as [|[hnd data] rest IH]; intros Hnot s.
  - reflexivity.
  - rewrite fmap_cons, not_elem_of_cons in Hnot. destruct Hnot as [Hne Hrest].
    cbn [fst] in Hne. cbn [feed fst snd].
    pose proof (Hkeep hnd data s ltac:(congruence)) as Hs.
    destruct (handleNotification hnd data s) as [[r s1] t]. cbn [fst snd] in Hs.
    destruct r as [[]|e].
    + specialize (IH Hrest s1).
      destruct (feed _ rest s1) as [[ts r'] s2]. cbn [snd] in *. congruence.
    + cbn [snd]. exact Hs.
Qed.

(** C10. After any run of deliveries from the initial state in which the x
    channel or the y channel has not delivered, handling a delivery on the z
    channel raises and emits no event; with a well-formed two-byte frame the
    exception is the AttributeError of the missing buffered value. *)
Theorem z_before_x_and_y_fails (inputs : list (Z * list byte)) (dz : list byte) :
  X_HND ∉ (fst <$> inputs) ∨ Y_HND ∉ (fst <$> inputs) →
  let s := snd (deliver_sensor inputs __init__) in
  ∃ (e : exn) (s' : state),
    handleNotification Z_HND dz s = (Raise e, s', [])
    ∧ (length dz = 2%nat → e = AttributeError).
Proof.
  intros Hmissing s. unfold Z_HND. rewrite handle_z.
  assert (Hxy : x s = None ∨ y s = None).
  { destruct Hmissing as [Hx|Hy]; [left|right]; unfold s.
    - rewrite (deliver_keeps x X_HND) by (auto using handle_keeps_x). reflexivity.
    - rewrite (deliver_keeps y Y_HND) by (auto using handle_keeps_y). reflexivity. }
  destruct (struct.unpack1 struct.h_ dz) as [v|e] eqn:Hunpack.
  - destruct Hxy as [Hx|Hy].
    + rewrite Hx. eauto.
    + rewrite Hy. destruct (x s); eauto.
  - exists e, s. split; [reflexivity|].
    intros Hlen. rewrite (unpack1_h_short dz Hlen) in Hunpack. discriminate.
Qed.

Lemma z_before_x_and_y_fails_witness :
  ∃ (e : exn) (s' : state),
    handleNotification Z_HND [Byte.x05; Byte.x00]
      (snd (deliver_sensor [(X_HND, [Byte.x01; Byte.x00]); (90, [Byte.x01])] __init__))
    = (Raise e, s', [])
    ∧ (length [Byte.x05; Byte.x00] = 2%nat → e = AttributeError).
Proof.
  apply (z_before_x_and_y_fails [(X_HND, [Byte.x01; Byte.x00]); (90, [Byte.x01])]).
  right. vm_compute. intros H.
  repeat (apply elem_of_cons in H; destruct H as [H|H]; [discriminate|]).
  inversion H.
Defined.

End SensorDelegateProofs.

(** ** render *)

Ltac rd_simpl :=
  repeat progress (py_unfold; cbv beta iota zeta;
                   cbn [render.current_pos render.last_pos render.isRaw render.dict fst snd]).

Lemma moveCursor_spec (line : Z) (s : render.state) :
  ∃ out, render.moveCursor line s = (Ok tt, render.with_current_pos line s, out).
Proof.
  unfold render.moveCursor, render.set_current_pos, render.with_current_pos. rd_simpl.
  destruct (render.current_pos s <? line); rd_simpl;
    destruct (render.current_pos s >? line); rd_simpl; eauto.
Qed.

Lemma getLine_seen (label : string) (v : Z) (s : render.state) :
  render.dict s !! label = Some v →
  render.getLine label s = (Ok v, s, []).
Proof.
  intros Hv. unfold render.getLine. rd_simpl.
  rewrite bool_decide_eq_false_2 by congruence. rd_simpl.
  rewrite Hv. reflexivity.
Qed.

Lemma getLine_new (label : string) (s : render.state) :
  render.dict s !! label = None →
  ∃ out,
    render.getLine label s
    = (Ok (render.last_pos s + 1),
       {| render.current_pos := render.current_pos s;
          render.last_pos := render.last_pos s + 1;
          render.isRaw := render.isRaw s;
          render.dict := <[label := render.last_pos s + 1]> (render.dict s) |},
       out).
Proof.
  intros Hv. unfold render.getLine, render.set_last_pos, render.set_item. rd_simpl.
  rewrite bool_decide_eq_true_2 by assumption. rd_simpl.
  destruct (render.last_pos s + 1 >? 0) eqn:Hpos; rd_simpl.
  - edestruct (moveCursor_spec (render.last_pos s + 1)) as [o1 ->]. rd_simpl.
    unfold render.with_current_pos at 1. rd_simpl.
    edestruct (moveCursor_spec (render.current_pos s)) as [o2 ->]. rd_simpl.
    unfold render.with_current_pos. rd_simpl.
    rewrite lookup_insert_eq. eauto.
  - rewrite lookup_insert_eq. destruct s; eauto.
Qed.

(** Dashboard-mode [render]: the line that [getLine] resolves becomes the
    cursor position. *)
Lemma render_dashboard (label data unit_ : string) (s : render.state) :
  render.isRaw s = false →
  ∃ line s1 o1 o2,
    render.getLine label s = (Ok line, s1, o1)
    ∧ render.render label data unit_ s = (Ok tt, render.with_current_pos line s1, o2).
Proof.
  intros Hraw. unfold render.render, render.printDashboard. rd_simpl. rewrite Hraw.
  destruct (render.dict s !! label) as [v|] eqn:Hv.
  - rewrite (getLine_seen _ _ _ Hv). rd_simpl.
    destruct (moveCursor_spec v s) as [o ->]. rd_simpl. eauto 10.
  - destruct (getLine_new _ _ Hv) as [o ->]. rd_simpl.
    edestruct moveCursor_spec as [o' ->]. rd_simpl. eauto 10.
Qed.

Lemma remove_dups_snoc_seen (l : string) (L : list string) :
  l ∈ L → length (remove_dups (L ++ [l])) = length (remove_dups L).
Proof.
  intros Hin. apply Permutation_length, NoDup_Permutation; try apply NoDup_remove_dups.
  intros x. rewrite !elem_of_remove_dups, elem_of_app, list_elem_of_singleton.
  split; [intros [H|H]; [|subst x]; assumption | auto].
Qed.

Lemma remove_dups_snoc_new (l : string) (L : list string) :
  l ∉ L → length (remove_dups (L ++ [l])) = S (length (remove_dups L)).
Proof.
  intros Hnin.
  change (S (length (remove_dups L))) with (length (l :: remove_dups L)).
  apply Permutation_length, NoDup_Permutation.
  - apply NoDup_remove_dups.
  - constructor; [rewrite elem_of_remove_dups; exact Hnin | apply NoDup_remove_dups].
  - intros x. rewrite elem_of_cons, !elem_of_remove_dups, elem_of_app, list_elem_of_singleton.
    tauto.
Qed.

(** Where the first occurrence of a label lies once one more label has been
    appended to the history. *)
Lemma first_occurrence_snoc (L pre post : list string) (x l : string) :
  L ++ [x] = pre ++ l :: post → l ∉ pre →
  (∃ post', L = pre ++ l :: post') ∨ (L = pre ∧ l = x ∧ l ∉ L).
Proof.
  intros Heq Hpre.
  destruct (decide (post = [])) as [->|Hne].
  - right. apply app_inj_tail in Heq as [-> ->]. auto.
  - left. destruct (exists_last Hne) as (post' & y & ->).
    change (pre ++ l :: post' ++ [y]) with (pre ++ (l :: post') ++ [y]) in Heq.
    rewrite app_assoc in Heq. apply app_inj_tail in Heq as [-> _]. eauto.
Qed.

Lemma lines_assigned_init (isRaw : bool) : lines_assigned (render.__init__ isRaw) [].
Proof.
  unfold lines_assigned, render.__init__; cbn [render.dict render.last_pos].
  split_and!.
  - intros l. split.
    + intros [v Hv]. rewrite lookup_empty in Hv. discriminate.
    + intros H. inversion H.
  - reflexivity.
  - intros pre post l Heq. destruct pre; discriminate.
  - intros l i H. rewrite lookup_empty in H. discriminate.
  - intros l1 l2 i H. rewrite lookup_empty in H. discriminate.
Qed.

Lemma getLine_step (label : string) (s : render.state) (L : list string) :
  lines_assigned s L →
  ∃ line s1 out,
    render.getLine label s = (Ok line, s1, out)
    ∧ render.isRaw s1 = render.isRaw s
    ∧ render.dict s1 !! label = Some line
    ∧ lines_assigned s1 (L ++ [label]).
Proof.
  intros (Hdom & Hlast & Hfirst & Hrange & Hinj).
  destruct (render.dict s !! label) as [v|] eqn:Hv.
  - exists v, s, []. rewrite (getLine_seen _ _ _ Hv).
    assert (Hin : label ∈ L) by (apply Hdom; eauto).
    split_and!; [reflexivity | reflexivity | exact Hv |].
    unfold lines_assigned. split_and!.
    + intros l. rewrite elem_of_app, list_elem_of_singleton. split.
      * intros Hs. left. apply Hdom, Hs.
      * intros [H|H]; [|subst l]; apply Hdom; assumption.
    + rewrite remove_dups_snoc_seen by assumption. exact Hlast.
    + intros pre post l Heq Hpre.
      destruct (first_occurrence_snoc _ _ _ _ _ Heq Hpre) as [[post' HL]|(HL & Hl & Hn)].
      * eapply Hfirst; eauto.
      * subst l. contradiction.
    + exact Hrange.
    + exact Hinj.
  - destruct (getLine_new _ _ Hv) as [out ->].
    assert (Hnin : label ∉ L).
    { intros Hin. apply Hdom in Hin as [? Hin]. congruence. }
    eexists _, _, _. split; [reflexivity|]. cbn [render.isRaw render.dict].
    split; [reflexivity|]. split; [apply lookup_insert_eq|].
    unfold lines_assigned. cbn [render.dict render.last_pos].
    split_and!.
    + intros l. rewrite elem_of_app, list_elem_of_singleton. split.
      * intros [w Hw].
        destruct (decide (label = l)) as [<-|Hne]; [auto|].
        rewrite lookup_insert_ne in Hw by assumption. left. apply Hdom. eauto.
      * intros [Hin|Hl].
        -- destruct (decide (label = l)) as [<-|Hne]; [contradiction|].
           rewrite lookup_insert_ne by assumption. apply Hdom, Hin.
        -- subst l. rewrite lookup_insert_eq. eauto.
    + rewrite remove_dups_snoc_new by assumption. lia.
    + intros pre post l Heq Hpre.
      destruct (first_occurrence_snoc _ _ _ _ _ Heq Hpre) as [[post' HL]|(HL & Hl & Hn)].
      * assert (label ≠ l).
        { intros <-. apply Hnin. rewrite HL, elem_of_app, elem_of_cons. auto. }
        rewrite lookup_insert_ne by assumption. eapply Hfirst; eauto.
      * subst l pre. rewrite lookup_insert_eq. f_equal. lia.
    + intros l i H. destruct (decide (label = l)) as [<-|Hne].
      * rewrite lookup_insert_eq in H. injection H as <-. lia.
      * rewrite lookup_insert_ne in H by assumption. apply Hrange in H. lia.
    + intros l1 l2 i H1 H2.
      destruct (decide (label = l1)) as [<-|Hne1], (decide (label = l2)) as [<-|Hne2];
        try reflexivity.
      * rewrite lookup_insert_eq in H1. rewrite lookup_insert_ne in H2 by assumption.
        injection H1 as <-. apply Hrange in H2. lia.
      * rewrite lookup_insert_eq in H2. rewrite lookup_insert_ne in H1 by assumption.
        injection H2 as <-. apply Hrange in H1. lia.
      * rewrite lookup_insert_ne in H1, H2 by assumption. eauto.
Qed.

Lemma render_step (label data unit_ : string) (s : render.state) (L : list string) :
  lines_assigned s L → render.isRaw s = false →
  ∃ s1 out,
    render.render label data unit_ s = (Ok tt, s1, out)
    ∧ render.isRaw s1 = false
    ∧ render.dict s1 !! label = Some (render.current_pos s1)
    ∧ lines_assigned s1 (L ++ [label]).
Proof.
  intros Hinv Hraw.
  destruct (render_dashboard label data unit_ s Hraw) as (line & s1 & o1 & o2 & Hget & ->).
  destruct (getLine_step label s L Hinv) as (line' & s1' & o1' & Hget' & Hraw' & Hline & Hinv').
  rewrite Hget in Hget'. injection Hget' as <- <- <-.
  exists (render.with_current_pos line s1), o2.
  split_and!; [reflexivity | cbn; congruence | exact Hline | exact Hinv'].
Qed.

Lemma renders_inv (calls : list (string * string * string)) :
  ∀ (s : render.state) (L : list string),
    lines_assigned s L → render.isRaw s = false →
    ∃ s1 out,
      render.renders calls s = (Ok tt, s1, out)
      ∧ render.isRaw s1 = false
      ∧ lines_assigned s1 (L ++ labels_of calls)
      ∧ (∀ pre label data unit_,
           calls = pre ++ [(label, data, unit_)] →
           render.dict s1 !! label = Some (render.current_pos s1)).
Proof.
  induction calls as [|[[label data] unit_] rest IH]; intros s L Hinv Hraw.
  - exists s, []. split_and!; [reflexivity | exact Hraw | | ].
    + unfold labels_of. cbn. rewrite app_nil_r. exact Hinv.
    + intros pre ? ? ? Heq. destruct pre; discriminate.
  - destruct (render_step label data unit_ s L Hinv Hraw)
      as (s1 & o1 & Hr & Hraw1 & Hline1 & Hinv1).
    destruct (IH s1 (L ++ [label]) Hinv1 Hraw1) as (s2 & o2 & Hrs & Hraw2 & Hinv2 & Hlast2).
    cbn [render.renders]. rd_simpl. rewrite Hr. rd_simpl. rewrite Hrs.
    eexists _, _. split_and!; [reflexivity | exact Hraw2 | |].
    + unfold labels_of in *. cbn [fmap list_fmap fst]. rewrite <- app_assoc in Hinv2.
      exact Hinv2.
    + intros pre label' data' unit' Heq. destruct pre as [|c pre'].
      * cbn in Heq. injection Heq as Hl Hd Hu Hrest. subst label' data' unit' rest.
        cbn [render.renders] in Hrs. rd_simpl. injection Hrs as Hs Ho. subst s2 o2.
        exact Hline1.
      * cbn in Heq. injection Heq as Hc Hrest. subst c rest.
        eapply Hlast2. reflexivity.
Qed.

(** C9. In dashboard mode, after any sequence of renders the render of
    [label] resolves to a line (the cursor position it ends on, which is
    also the entry of the table) such that: the first label ever rendered
    gets line 0; a label not rendered before gets the next unused index,
    the number of distinct labels rendered before it; a label rendered
    before gets the line of its first render, whatever was rendered in
    between; and no line is shared by two labels. *)
Theorem dashboard_lines_first_seen
    (calls : list (string * string * string)) (label data unit_ : string) :
  let history := labels_of calls in
  let result := render.renders (calls ++ [(label, data, unit_)]) (render.__init__ false) in
  let s := snd (fst result) in
  let line := render.current_pos s in
  fst (fst result) = Ok tt
  ∧ render.dict s !! label = Some line
  ∧ (history = [] → line = 0)
  ∧ (label ∉ history → line = Z.of_nat (length (remove_dups history)))
  ∧ (∀ pre post, history = pre ++ label :: post → label ∉ pre →
       line = Z.of_nat (length (remove_dups pre)))
  ∧ (∀ l1 l2 i, render.dict s !! l1 = Some i → render.dict s !! l2 = Some i → l1 = l2).
Proof.
  intros history result s line.
  destruct (renders_inv (calls ++ [(label, data, unit_)]) (render.__init__ false) []
              (lines_assigned_init false) eq_refl)
    as (s1 & out & Hrun & _ & Hinv & Hlast).
  subst line s result. rewrite Hrun. cbn [fst snd].
  specialize (Hlast calls label data unit_ eq_refl).
  destruct Hinv as (_ & _ & Hfirst & _ & Hinj).
  assert (Hhist : [] ++ labels_of (calls ++ [(label, data, unit_)]) = history ++ [label]).
  { unfold labels_of, history. rewrite fmap_app. reflexivity. }
  rewrite Hhist in Hfirst.
  assert (Hnew : label ∉ history →
                 render.current_pos s1 = Z.of_nat (length (remove_dups history))).
  { intros Hnin. specialize (Hfirst history [] label eq_refl Hnin). congruence. }
  split_and!; [reflexivity | exact Hlast | | exact Hnew | | exact Hinj].
  - intros Hnil. rewrite Hnew; rewrite Hnil; [reflexivity | apply not_elem_of_nil].
  - intros pre post Heq Hpre.
    specialize (Hfirst pre (post ++ [label]) label).
    rewrite Heq, <- app_assoc in Hfirst. specialize (Hfirst eq_refl Hpre). congruence.
Qed.

Lemma dashboard_lines_first_seen_witness :
  let result := render.renders ([("a", "1", ""); ("b", "2", ""); ("c", "3", "")] ++ [("b", "4", "")])
                  (render.__init__ false) in
  render.current_pos (snd (fst result)) = 1.
Proof.
  intros result.
  exact (proj1 (proj2 (proj2 (proj2 (proj2
           (dashboard_lines_first_seen [("a", "1", ""); ("b", "2", ""); ("c", "3", "")]
              "b" "4" "")))))
           ["a"] ["c"] eq_refl
           ltac:(intros H; apply list_elem_of_singleton in H; discriminate)).
Defined.

(** ** SensorTag *)

Lemma contains_is_Some (svcs : gmap UUID Service) (key : UUID) :
  contains svcs key = true ↔ is_Some (svcs !! key).
Proof. unfold contains. apply bool_decide_eq_true. Qed.

Lemma contains_not_Some (svcs : gmap UUID Service) (key : UUID) :
  contains svcs key = false ↔ ¬ is_Some (svcs !! key).
Proof. unfold contains. apply bool_decide_eq_false. Qed.

Lemma version_autodetect (svcs : gmap UUID Service) (fwVers : list string) :
  version (SensorTag__init__ AUTODETECT svcs fwVers) = detect svcs.
Proof.
  unfold SensorTag__init__. change (String.eqb AUTODETECT AUTODETECT) with true.
  cbv beta iota zeta. unfold detect.
  destruct (contains svcs (_TI_UUID 43632)); [destruct (contains svcs (_TI_UUID 65440))|];
    reflexivity.
Qed.

(** C5. Autodetection yields Gen2 (CC2650) when the optical service is among
    the discovered services and the ADXL362 accelerometer service is not,
    Gen3 (CC1352R) when both are, and Gen1 (v1) when neither is. *)
Theorem generation_detection (svcs : gmap UUID Service) (fwVers : list string) :
  let optical := is_Some (svcs !! _TI_UUID 0xAA70) in
  let accel3 := is_Some (svcs !! _TI_UUID 0xFFA0) in
  let v := version (SensorTag__init__ AUTODETECT svcs fwVers) in
  (optical → ¬ accel3 → v = SENSORTAG_2650)
  ∧ (optical → accel3 → v = SENSORTAG_1352R)
  ∧ (¬ optical → ¬ accel3 → v = SENSORTAG_V1).
Proof.
  intros optical accel3 v. subst v. rewrite version_autodetect. unfold detect.
  split_and!; intros Ho Ha;
    try apply contains_is_Some in Ho; try apply contains_not_Some in Ho;
    try apply contains_is_Some in Ha; try apply contains_not_Some in Ha;
    rewrite Ho, ?Ha; reflexivity.
Qed.

Lemma generation_detection_witness :
  version (SensorTag__init__ AUTODETECT
             {[ _TI_UUID 0xAA70 := ServiceOf (_TI_UUID 0xAA70);
                _TI_UUID 0xAA80 := ServiceOf (_TI_UUID 0xAA80) ]} ["1.20"])
  = SENSORTAG_2650
  ∧ version (SensorTag__init__ AUTODETECT
               {[ _TI_UUID 0xAA70 := ServiceOf (_TI_UUID 0xAA70);
                  _TI_UUID 0xFFA0 := ServiceOf (_TI_UUID 0xFFA0) ]} [])
    = SENSORTAG_1352R
  ∧ version (SensorTag__init__ AUTODETECT
               {[ _TI_UUID 0xAA10 := ServiceOf (_TI_UUID 0xAA10) ]} ["1.4 (Jul 12)"])
    = SENSORTAG_V1.
Proof.
  split_and!.
  - apply (proj1 (generation_detection _ _)).
    + vm_compute. eauto.
    + vm_compute. intros [? H]. discriminate.
  - apply (proj1 (proj2 (generation_detection _ _))); vm_compute; eauto.
  - apply (proj2 (proj2 (generation_detection _ _)));
      vm_compute; intros [? H]; discriminate.
Defined.

(** C6 fails on Gen1 for the battery role: [SensorTag.__init__] assigns no
    [battery] attribute on a v1 tag, so both statements of [main] that
    evaluate [tag.battery] raise AttributeError; the sibling role that the
    same branch does mark absent, [lightmeter], gets the warning and is
    skipped. *)
Theorem gen1_battery_raises (svcs : gmap UUID Service) (fwVers : list string) (dev : device) :
  let tag := SensorTag__init__ SENSORTAG_V1 svcs fwVers in
  attrs tag !! role_attr battery = None
  ∧ Tag.main_enable dev (role_tag_name battery) (role_attr battery) tag
    = (Raise AttributeError, tag, [])
  ∧ Tag.main_poll dev (role_attr battery) tag = (Raise AttributeError, tag, [])
  ∧ Tag.main_enable dev (role_tag_name light) (role_attr light) tag
    = (Ok tt, tag, [Print "Warning : no  Lightmeter  on this device"])
  ∧ Tag.main_poll dev (role_attr light) tag = (Ok None, tag, []).
Proof.
  intros tag. split_and!; reflexivity.
Qed.

(** ** Sensor drivers *)

Ltac sn_simpl :=
  repeat progress
    (py_unfold;
     unfold Sensor.modify, Sensor.the, with_service, with_ctrl, with_data,
       with_scale, with_S0, with_ctrlBits, with_char_descr, with_calChr,
       with_cal in *;
     cbv beta iota zeta;
     cbn [class service ctrl data scale S0 ctrlBits char_descr calChr cal
          fst snd Sensor.is_None negb app]).

Lemma SensorBase_enable_eq (o : SensorBase) :
  Sensor.SensorBase_enable o
  = (Ok tt, bind_endpoints o,
     match sensorOn (class o) with
     | Some payload => [CharWrite (bound_ctrl o) payload true]
     | None => []
     end).
Proof.
  unfold Sensor.SensorBase_enable, bind_endpoints, bound_data, bound_ctrl, bound_service.
  destruct o as [c sv ct da sc s0 cb cd cc ca]. sn_simpl.
  destruct sv, ct, da; sn_simpl; destruct (sensorOn c); sn_simpl; reflexivity.
Qed.

Lemma SensorBase_read_eq (dev : device) (o : SensorBase) :
  Sensor.SensorBase_read dev o
  = match data o with
    | Some c => (Ok (dev c), o, [CharRead c])
    | None => (Raise AttributeError, o, [])
    end.
Proof.
  unfold Sensor.SensorBase_read. sn_simpl. destruct (data o); sn_simpl; reflexivity.
Qed.

Lemma BarometerSensor_enable_eq (dev : device) (o : SensorBase) :
  class o = BarometerSensor →
  let o1 := with_calChr (Some (cal_char o)) (bind_endpoints o) in
  Sensor.BarometerSensor_enable dev o
  = match struct.unpack Sensor.CAL_FORMAT (dev (cal_char o)) with
    | Ok cs =>
        match Sensor.calibration_of cs with
        | Some k =>
            (Ok tt, with_cal (Some k) o1,
             [CharWrite (bound_ctrl o) [Byte.x02] true; CharRead (cal_char o);
              CharWrite (bound_ctrl o) [Byte.x01] true])
        | None =>
            (Raise ValueError, o1,
             [CharWrite (bound_ctrl o) [Byte.x02] true; CharRead (cal_char o)])
        end
    | Raise e =>
        (Raise e, o1,
         [CharWrite (bound_ctrl o) [Byte.x02] true; CharRead (cal_char o)])
    end.
Proof.
  intros Hc o1. subst o1. unfold Sensor.BarometerSensor_enable.
  py_unfold. rewrite SensorBase_enable_eq, Hc.
  unfold bind_endpoints, cal_char. sn_simpl.
  destruct (struct.unpack Sensor.CAL_FORMAT _) as [cs|e]; sn_simpl; [|reflexivity].
  destruct (Sensor.calibration_of cs) as [k|]; sn_simpl; reflexivity.
Qed.

Lemma unpack_length_ok (fs : list struct.fmt) (frame : list byte) :
  length frame = struct.calcsize fs →
  struct.unpack fs frame = Ok (struct.fields fs frame).
Proof.
  intros H. unfold struct.unpack. rewrite H, Nat.eqb_refl. reflexivity.
Qed.

Lemma unpack_length_bad (fs : list struct.fmt) (frame : list byte) :
  length frame ≠ struct.calcsize fs →
  struct.unpack fs frame = Raise StructError.
Proof.
  intros H. unfold struct.unpack. apply Nat.eqb_neq in H. rewrite H. reflexivity.
Qed.

(** [read] and [disable] leave every attribute but the trace alone. *)
Lemma Sensor_disable_cal (o : SensorBase) : cal (snd (fst (Sensor.disable o))) = cal o.
Proof.
  unfold Sensor.disable, Sensor.AccelerometerSensorADXL362_disable,
    Sensor.KeypressSensor_disable, Sensor.SensorBase_disable, Sensor.write_descr.
  destruct o as [c sv ct da sc s0 cb cd cc ca]. sn_simpl.
  destruct c, sv, ct, cd; reflexivity.
Qed.

Ltac read_unfold :=
  unfold Sensor.read, Sensor.IRTemperatureSensor_read,
    Sensor.IRTemperatureSensorTMP007_read, Sensor.float32_read,
    Sensor.AccelerometerSensor_read, Sensor.HumiditySensor_read,
    Sensor.HumiditySensorHDC1000_read, Sensor.MagnetometerSensor_read,
    Sensor.BarometerSensor_read, Sensor.BarometerSensorBMP280_read,
    Sensor.GyroscopeSensor_read, Sensor.OpticalSensorOPT3001_read,
    Sensor.BatterySensor_read.

Ltac case_matches :=
  repeat (match goal with
          | |- context [match ?x with _ => _ end] =>
              lazymatch x with
              | context [match _ with _ => _ end] => fail
              | _ => destruct x eqn:?
              end
          end; sn_simpl).

(** [read] performs exactly one read, of the data endpoint, and assigns no
    attribute; with no data endpoint it raises before anything else. *)
Lemma Sensor_read_shape (dev : device) (o : SensorBase) :
  ∃ r, Sensor.read dev o
       = (r, o, match data o with Some c => [CharRead c] | None => [] end)
       ∧ (data o = None → r = Raise AttributeError).
Proof.
  read_unfold. py_unfold. cbv beta iota zeta.
  destruct (class o) eqn:Hc; py_unfold; rewrite SensorBase_read_eq;
    destruct (data o) as [ch|] eqn:Hd; sn_simpl;
    try (eexists; split; [reflexivity | intros; congruence || reflexivity]);
    case_matches;
    eexists; (split; [reflexivity | intros; congruence]).
Qed.

Lemma Sensor_read_cal (dev : device) (o : SensorBase) :
  cal (snd (fst (Sensor.read dev o))) = cal o.
Proof. destruct (Sensor_read_shape dev o) as (r & -> & _). reflexivity. Qed.

Lemma calibration_of_fields (frame : list byte) :
  is_Some (Sensor.calibration_of (struct.fields Sensor.CAL_FORMAT frame)).
Proof. cbn [Sensor.CAL_FORMAT struct.fields Sensor.calibration_of]. eauto. Qed.

(** C4, as amended. The calibration constants are not loaded before the
    first [enable()]; every [enable()] of the Gen1 barometer, the first and
    any later one, reads the calibration characteristic once (between the
    two mode writes) and replaces the constants with the values decoded from
    that read; [read()] and [disable()] never change them. *)
Theorem barometer_calibration_loaded_by_every_enable :
  (∀ fw : string, cal (new BarometerSensor fw) = None)
  ∧ (∀ (dev : device) (o : SensorBase),
       class o = BarometerSensor →
       length (dev (cal_char o)) = 16%nat →
       ∃ (k : calibration) (o' : SensorBase),
         Sensor.calibration_of (struct.fields Sensor.CAL_FORMAT (dev (cal_char o))) = Some k
         ∧ Sensor.enable dev o
           = (Ok tt, o',
              [CharWrite (bound_ctrl o) [Byte.x02] true; CharRead (cal_char o);
               CharWrite (bound_ctrl o) [Byte.x01] true])
         ∧ cal o' = Some k)
  ∧ (∀ (dev : device) (o : SensorBase), cal (snd (fst (Sensor.read dev o))) = cal o)
  ∧ (∀ o : SensorBase, cal (snd (fst (Sensor.disable o))) = cal o).
Proof.
  split_and!.
  - reflexivity.
  - intros dev o Hc Hlen.
    destruct (calibration_of_fields (dev (cal_char o))) as [k Hk].
    exists k. eexists. split; [exact Hk|].
    unfold Sensor.enable. py_unfold. rewrite Hc.
    rewrite (BarometerSensor_enable_eq dev o Hc).
    rewrite unpack_length_ok by exact Hlen. rewrite Hk.
    split; reflexivity.
  - apply Sensor_read_cal.
  - apply Sensor_disable_cal.
Qed.

Lemma barometer_calibration_loaded_by_every_enable_witness :
  ∃ (k : calibration) (o' : SensorBase),
    Sensor.calibration_of
      (struct.fields Sensor.CAL_FORMAT
         (const_dev (replicate 16 Byte.x01) (cal_char (new BarometerSensor "")))) = Some k
    ∧ Sensor.enable (const_dev (replicate 16 Byte.x01)) (new BarometerSensor "")
      = (Ok tt, o',
         [CharWrite (bound_ctrl (new BarometerSensor "")) [Byte.x02] true;
          CharRead (cal_char (new BarometerSensor ""));
          CharWrite (bound_ctrl (new BarometerSensor "")) [Byte.x01] true])
    ∧ cal o' = Some k.
Proof.
  apply (proj1 (proj2 barometer_calibration_loaded_by_every_enable)); reflexivity.
Defined.

(** C4 fails as stated: a second [enable()] reads the calibration
    characteristic again and, the device holding other bytes by then,
    leaves other constants than the first. *)
Lemma calibration_loaded_once_counterexample :
  let o0 := new BarometerSensor "" in
  let o1 := snd (fst (Sensor.enable (const_dev (replicate 16 Byte.x00)) o0)) in
  let second := Sensor.enable (const_dev (replicate 16 Byte.x01)) o1 in
  is_Some (cal o1)
  ∧ fst (fst second) = Ok tt
  ∧ CharRead (cal_char o0) ∈ snd second
  ∧ cal (snd (fst second)) ≠ cal o1.
Proof.
  split_and!.
  - vm_compute. eauto.
  - reflexivity.
  - vm_compute. apply elem_of_cons. right. apply elem_of_cons. left. reflexivity.
  - vm_compute. discriminate.
Qed.

Lemma field_b_signed (b : byte) :
  struct.field struct.b_ [b]
  = if 128 <=? struct.byte_val b then struct.byte_val b - 256 else struct.byte_val b.
Proof.
  unfold struct.field. cbn [struct.le_uint struct.width struct.signed andb].
  change (2 ^ (8 * Z.of_nat 1 - 1)) with 128. change (2 ^ (8 * Z.of_nat 1)) with 256.
  replace (struct.byte_val b + 256 * 0) with (struct.byte_val b) by lia.
  reflexivity.
Qed.

(** C8. Once enabled, [read()] of the Gen1 accelerometer on a three-byte
    frame returns the three signed bytes, each divided by the scale fixed at
    construction: 64 when the firmware revision starts with "1.4 ", 16
    otherwise. *)
Theorem accelerometer_gen1_scale
    (fw : string) (dev dev' : device) (b0 b1 b2 : byte) :
  let o0 := new AccelerometerSensor fw in
  let o := snd (fst (Sensor.enable dev o0)) in
  let s : Q := (if String.prefix "1.4 " fw then 64 else 16)%Q in
  let raw (b : byte) : Z :=
    if 128 <=? struct.byte_val b then struct.byte_val b - 256 else struct.byte_val b in
  fst (fst (Sensor.enable dev o0)) = Ok tt
  ∧ scale o = s
  ∧ (dev' (bound_data o0) = [b0; b1; b2] →
     Sensor.read dev' o
     = (Ok (RTuple [Fl (inject_Z (raw b0) / s);
                    Fl (inject_Z (raw b1) / s);
                    Fl (inject_Z (raw b2) / s)]%Q),
        o, [CharRead (bound_data o0)])).
Proof.
  intros o0 o s raw. subst o.
  unfold Sensor.enable. py_unfold. cbv beta iota zeta.
  change (class o0) with AccelerometerSensor. cbv iota.
  rewrite SensorBase_enable_eq. cbn [fst snd].
  split_and!; [reflexivity | reflexivity |].
  intros Hframe. read_unfold. py_unfold. cbv beta iota zeta.
  change (class (bind_endpoints o0)) with AccelerometerSensor. cbv iota.
  py_unfold. rewrite SensorBase_read_eq.
  change (data (bind_endpoints o0)) with (Some (bound_data o0)). cbv iota.
  rewrite Hframe.
  rewrite unpack_length_ok by reflexivity.
  cbn [struct.fields struct.width take drop]. rewrite !field_b_signed. fold raw.
  change (scale (bind_endpoints o0)) with s.
  unfold Sensor.div_all, fdiv. py_unfold.
  assert (Hs : Qeq_bool s 0 = false) by (subst s; destruct (String.prefix _ _); reflexivity).
  rewrite Hs. reflexivity.
Qed.

Lemma accelerometer_gen1_scale_witness :
  Sensor.read (const_dev [Byte.x10; Byte.xf0; Byte.x7f])
    (snd (fst (Sensor.enable (const_dev []) (new AccelerometerSensor "1.4 (Jul 12 2012)"))))
  = (Ok (RTuple [Fl (inject_Z 16 / 64); Fl (inject_Z (-16) / 64); Fl (inject_Z 127 / 64)]%Q),
     snd (fst (Sensor.enable (const_dev []) (new AccelerometerSensor "1.4 (Jul 12 2012)"))),
     [CharRead (bound_data (new AccelerometerSensor "1.4 (Jul 12 2012)"))]).
Proof.
  apply (proj2 (proj2 (accelerometer_gen1_scale "1.4 (Jul 12 2012)" (const_dev [])
                         (const_dev [Byte.x10; Byte.xf0; Byte.x7f])
                         Byte.x10 Byte.xf0 Byte.x7f))).
  reflexivity.
Defined.




Lemma field_h_sword (b0 b1 : byte) :
  struct.field struct.h_ [b0; b1] = sword [b0; b1] 0.
Proof.
  unfold struct.field, sword, uword, ubyte.
  cbn [struct.le_uint struct.width struct.signed andb nth Nat.mul Nat.add].
  change (2 ^ (8 * Z.of_nat 2 - 1)) with 32768. change (2 ^ (8 * Z.of_nat 2)) with 65536.
  replace (struct.byte_val b0 + 256 * (struct.byte_val b1 + 256 * 0))
    with (struct.byte_val b0 + 256 * struct.byte_val b1) by lia.
  reflexivity.
Qed.

Lemma field_H_uword (b0 b1 : byte) :
  struct.field struct.H_ [b0; b1] = uword [b0; b1] 0.
Proof.
  unfold struct.field, uword, ubyte.
  cbn [struct.le_uint struct.width struct.signed andb nth Nat.mul Nat.add]. lia.
Qed.



Lemma Facade_read_eq (f : facade_class) (dev : device) (o : SensorBase) :
  Facade.read f dev o
  = match data o with
    | None => (Raise AttributeError, o, [])
    | Some c =>
        (match struct.unpack (replicate 9 struct.h_) (dev c) with
         | Ok rawVals =>
             Ok (RTuple ((λ v, of_double (double.of_Z v * Facade.scale f)%D)
                           <$> Facade.slice f rawVals))
         | Raise e => Raise e
         end, o, [CharRead c])
    end.
Proof.
  unfold Facade.read, Sensor.MovementSensorMPU9250_rawRead. py_unfold. cbv beta.
  rewrite SensorBase_read_eq. destruct (data o); [|reflexivity].
  destruct (struct.unpack _ _); reflexivity.
Qed.

(** The words of a frame given byte by byte. *)
Ltac words :=
  unfold sword, uword, sbyte, ubyte;
  cbn [nth Nat.mul Nat.add].








Lemma Facade_read_components
    (f : facade_class) (dev : device) (o : SensorBase) (ch : Characteristic) :
  data o = Some ch → length (dev ch) = 18%nat →
  Facade.read f dev o
  = (Ok (RTuple [view_component f (dev ch) 0; view_component f (dev ch) 1;
                 view_component f (dev ch) 2]), o, [CharRead ch]).
Proof.
  intros Hd Hlen. rewrite Facade_read_eq, Hd. rewrite unpack_length_ok by exact Hlen.
  destruct (dev ch) as [|b0 frame]; [discriminate|].
  do 17 (destruct frame as [|? frame]; [discriminate|]).
  destruct frame; [|discriminate].
  unfold view_component.
  destruct f; cbn [struct.fields replicate struct.width take drop Facade.slice fmap list_fmap
                   slice_start];
    rewrite !field_h_sword; words; reflexivity.
Qed.




(** The Gen1 infrared decoder raises on a well-formed frame whose object
    voltage is far below the ambient term: the base of the fourth root is
    negative. *)
Lemma infrared_gen1_read_can_raise :
  fst (fst (Sensor.read (const_dev [Byte.x00; Byte.x80; Byte.x80; Byte.x0c])
              (snd (fst (Sensor.enable (const_dev []) (new IRTemperatureSensor ""))))))
  = Raise ValueError.
Proof. vm_compute. reflexivity. Qed.

(** * Further properties *)

Lemma spec_edges_zero_unchanged (last current mask : Z) :
  KeypressDelegate.spec_down last current mask = 0 →
  KeypressDelegate.spec_up last current mask = 0 →
  Z.land current mask = Z.land last mask.
Proof.
  unfold KeypressDelegate.spec_down, KeypressDelegate.spec_up. intros Hd Hu.
  apply Z.bits_inj'. intros n Hn.
  apply (f_equal (λ v, Z.testbit v n)) in Hd, Hu.
  rewrite Z.bits_0, !Z.land_spec, Z.lnot_spec in Hd, Hu by exact Hn.
  rewrite !Z.land_spec.
  destruct (Z.testbit last n), (Z.testbit current n), (Z.testbit mask n);
    simpl in *; congruence.
Qed.

Lemma spec_edges_disjoint (last current mask : Z) :
  Z.land (KeypressDelegate.spec_down last current mask)
         (KeypressDelegate.spec_up last current mask) = 0.
Proof.
  unfold KeypressDelegate.spec_down, KeypressDelegate.spec_up.
  apply Z.bits_inj'. intros n Hn.
  rewrite Z.bits_0, !Z.land_spec, !Z.lnot_spec by exact Hn.
  destruct (Z.testbit last n), (Z.testbit current n), (Z.testbit mask n); reflexivity.
Qed.

(** X1. The Gen1/2 edge detector misses no edge: a one-byte sample emits
    nothing exactly when its two button bits equal those of the previous
    sample; and no button is reported both down and up by one sample. *)
Theorem keypress_event_iff_change (hnd : Z) (b : byte) (s : KeypressDelegate.state) :
  (snd (KeypressDelegate.handleNotification hnd [b] s) = []
   ↔ Z.land (struct.byte_val b) KeypressDelegate.ALL_BUTTONS
     = Z.land (KeypressDelegate.lastVal s) KeypressDelegate.ALL_BUTTONS)
  ∧ Z.land (KeypressDelegate.spec_down (KeypressDelegate.lastVal s) (struct.byte_val b)
              KeypressDelegate.ALL_BUTTONS)
           (KeypressDelegate.spec_up (KeypressDelegate.lastVal s) (struct.byte_val b)
              KeypressDelegate.ALL_BUTTONS) = 0.
Proof.
  split; [|apply spec_edges_disjoint].
  rewrite keypress_handle_byte. cbn [snd]. split.
  - intros Hnil. apply spec_edges_zero_unchanged.
    + destruct (_ =? 0) eqn:E in Hnil; [apply Z.eqb_eq, E | discriminate].
    + destruct (KeypressDelegate.spec_down _ _ _ =? 0); [|discriminate].
      destruct (_ =? 0) eqn:E in Hnil; [apply Z.eqb_eq, E | discriminate].
  - intros Heq. destruct (spec_edges_unchanged _ _ _ Heq) as [-> ->]. reflexivity.
Qed.

Lemma keypress_event_iff_change_witness :
  snd (KeypressDelegate.handleNotification 0 [Byte.x05]
         {| KeypressDelegate.lastVal := 0x01 |}) = [].
Proof.
  apply (proj1 (keypress_event_iff_change 0 Byte.x05 {| KeypressDelegate.lastVal := 0x01 |})).
  reflexivity.
Defined.

(** X2. A sample that is not exactly one byte is rejected: nothing is printed
    and the last mask is kept. *)
Theorem keypress_bad_sample (hnd : Z) (data : list byte) (s : KeypressDelegate.state) :
  length data ≠ 1%nat →
  KeypressDelegate.handleNotification hnd data s = (Raise StructError, s, []).
Proof.
  intros Hlen. destruct data as [|b [|b' rest]]; [reflexivity | | reflexivity].
  contradiction Hlen. reflexivity.
Qed.

Lemma keypress_bad_sample_witness :
  KeypressDelegate.handleNotification 0 [Byte.x01; Byte.x02] KeypressDelegate.__init__
  = (Raise StructError, KeypressDelegate.__init__, []).
Proof. apply keypress_bad_sample. discriminate. Defined.

Section SensorDelegateMore.
Import SensorDelegate.

(** X3. On the two key channels of the Gen3 dispatcher a one-byte payload is a
    state byte: 0x01 reports DOWN, 0x00 UP, 0xB1 HOLD of that channel's
    button and any other value reports nothing; a payload of another length
    is rejected; a delivery on a channel that is none of the five known ones
    is ignored. None of this touches the buffered axes, and the lookup of the
    button name never fails. *)
Theorem gen3_key_channels (hnd : Z) (data : list byte) (s : state) :
  (hnd = 90 ∨ hnd = 94 →
   let name := if hnd =? 90 then "Button 1" else "Button 2" in
   (∀ b, data = [b] →
      handleNotification hnd data s
      = (Ok tt, s,
         if struct.byte_val b =? 0x01 then [Render "Key pressed: " (name +:+ " DOWN") ""]
         else if struct.byte_val b =? 0x00 then [Render "Key pressed: " (name +:+ " UP") ""]
         else if struct.byte_val b =? 0xB1 then [Render "Key pressed: " (name +:+ " HOLD") ""]
         else []))
   ∧ (length data ≠ 1%nat →
      handleNotification hnd data s = (Raise StructError, s, [])))
  ∧ (hnd ≠ 110 → hnd ≠ 114 → hnd ≠ 118 → hnd ≠ 90 → hnd ≠ 94 →
     handleNotification hnd data s = (Ok tt, s, [])).
Proof.
  split; [|apply handle_other].
  intros Hkey name. split.
  - intros b ->.
    destruct Hkey as [-> | ->].
    + rewrite (handle_key 90 1) by auto. rewrite unpack1_B_byte. reflexivity.
    + rewrite (handle_key 94 2) by auto. rewrite unpack1_B_byte. reflexivity.
  - intros Hlen.
    assert (Hun : struct.unpack1 struct.B_ data = Raise StructError).
    { destruct data as [|b [|b' rest]]; [reflexivity | | reflexivity].
      contradiction Hlen. reflexivity. }
    destruct Hkey as [-> | ->].
    + rewrite (handle_key 90 1) by auto. rewrite Hun. reflexivity.
    + rewrite (handle_key 94 2) by auto. rewrite Hun. reflexivity.
Qed.

Lemma gen3_key_channels_witness :
  handleNotification 94 [Byte.xb1] __init__
  = (Ok tt, __init__, [Render "Key pressed: " "Button 2 HOLD" ""])
  ∧ handleNotification 90 [] __init__ = (Raise StructError, __init__, [])
  ∧ handleNotification 42 [Byte.x01] __init__ = (Ok tt, __init__, []).
Proof.
  split_and!.
  - exact (proj1 (proj1 (gen3_key_channels 94 [Byte.xb1] __init__) (or_intror eq_refl))
             Byte.xb1 eq_refl).
  - apply (proj2 (proj1 (gen3_key_channels 90 [] __init__) (or_introl eq_refl))).
    discriminate.
  - apply (proj2 (gen3_key_channels 42 [Byte.x01] __init__)); discriminate.
Defined.

Lemma unpack1_h_Ok (data : list byte) (v : Z) :
  struct.unpack1 struct.h_ data = Ok v → v = struct.field struct.h_ data.
Proof.
  destruct data as [|b0 [|b1 [|]]]; try discriminate.
  intros [= <-]. reflexivity.
Qed.

(** After a run of deliveries that raised nothing, an axis buffer holds the
    value of the last frame delivered on its channel, or what it held before
    when the channel did not deliver. *)
Lemma deliver_axis (f : state → option Z) (h : Z) :
  (∀ hnd data s, hnd ≠ h → f (snd (fst (handleNotification hnd data s))) = f s) →
  (∀ data s, fst (fst (handleNotification h data s)) = Ok tt →
             f (snd (fst (handleNotification h data s)))
             = Some (struct.field struct.h_ data)) →
  ∀ inputs s0,
    snd (fst (deliver_sensor inputs s0)) = Ok tt →
    f (snd (deliver_sensor inputs s0))
    = match last_frame h inputs with
      | Some d => Some (struct.field struct.h_ d)
      | None => f s0
      end.
Proof.
  intros Hother Hown. unfold deliver_sensor.
  induction inputs as [|[hnd data] rest IH]; intros s0 Hok.
  - reflexivity.
  - cbn [feed fst snd last_frame] in *.
    pose proof (Hother hnd data s0) as Ho. pose proof (Hown data s0) as Hw.
    destruct (handleNotification hnd data s0) as [[r s1] t] eqn:Hstep.
    cbn [fst snd] in *. destruct r as [[]|e].
    + specialize (IH s1).
      destruct (feed _ rest s1) as [[ts r'] s2]. cbn [fst snd] in *.
      rewrite (IH Hok).
      destruct (last_frame h rest); [reflexivity|].
      destruct (hnd =? h) eqn:E.
      * apply Z.eqb_eq in E. subst hnd. rewrite Hstep in Hw. cbn in Hw. auto.
      * apply Z.eqb_neq in E. auto.
    + discriminate.
Qed.

Lemma handle_x_sets (data : list byte) (s : state) :
  fst (fst (handleNotification X_HND data s)) = Ok tt →
  x (snd (fst (handleNotification X_HND data s))) = Some (struct.field struct.h_ data).
Proof.
  unfold X_HND. rewrite handle_x.
  destruct (struct.unpack1 _ _) eqn:E; [|discriminate].
  intros _. cbn. f_equal. apply unpack1_h_Ok, E.
Qed.

Lemma handle_y_sets (data : list byte) (s : state) :
  fst (fst (handleNotification Y_HND data s)) = Ok tt →
  y (snd (fst (handleNotification Y_HND data s))) = Some (struct.field struct.h_ data).
Proof.
  unfold Y_HND. rewrite handle_y.
  destruct (struct.unpack1 _ _) eqn:E; [|discriminate].
  intros _. cbn. f_equal. apply unpack1_h_Ok, E.
Qed.

(** X4. The vector event reports the most recent x and y: after any run of
    deliveries that raised nothing, a two-byte z frame emits the vector made
    of the last x frame, the last y frame and this z frame, whatever was
    delivered in between. *)
Theorem vector_reports_latest_axes
    (inputs : list (Z * list byte)) (s0 : state) (dx dy dz : list byte) :
  snd (fst (deliver_sensor inputs s0)) = Ok tt →
  last_frame X_HND inputs = Some dx →
  last_frame Y_HND inputs = Some dy →
  length dz = 2%nat →
  snd (handleNotification Z_HND dz (snd (deliver_sensor inputs s0)))
  = [Render "Accelerometer: "
       (str (struct.field struct.h_ dx) +:+ "," +:+ str (struct.field struct.h_ dy)
          +:+ "," +:+ str (struct.field struct.h_ dz)) ""].
Proof.
  intros Hok Hx Hy Hz.
  pose proof (deliver_axis x X_HND handle_keeps_x handle_x_sets inputs s0 Hok) as Hxs.
  pose proof (deliver_axis y Y_HND handle_keeps_y handle_y_sets inputs s0 Hok) as Hys.
  rewrite Hx in Hxs. rewrite Hy in Hys.
  unfold Z_HND. rewrite handle_z, (unpack1_h_short dz Hz), Hxs, Hys. reflexivity.
Qed.

Lemma vector_reports_latest_axes_witness :
  snd (handleNotification Z_HND [Byte.x03; Byte.x00]
         (snd (deliver_sensor
                 [(X_HND, [Byte.x01; Byte.x00]); (Y_HND, [Byte.x02; Byte.x00]);
                  (90, [Byte.x01]); (X_HND, [Byte.x07; Byte.x00])] __init__)))
  = [Render "Accelerometer: " "7,2,3" ""].
Proof.
  exact (vector_reports_latest_axes
           [(X_HND, [Byte.x01; Byte.x00]); (Y_HND, [Byte.x02; Byte.x00]);
            (90, [Byte.x01]); (X_HND, [Byte.x07; Byte.x00])] __init__
           [Byte.x07; Byte.x00] [Byte.x02; Byte.x00] [Byte.x03; Byte.x00]
           eq_refl eq_refl eq_refl eq_refl).
Defined.

End SensorDelegateMore.

(** X5. In raw mode a sequence of renders prints one line per call, made of the
    label and the data (the unit is not printed), and leaves the renderer as
    it was: no line is assigned and the cursor is not tracked. *)
Theorem raw_mode_prints_lines (calls : list (string * string * string)) (s : render.state) :
  render.isRaw s = true →
  render.renders calls s
  = (Ok tt, s, (λ c, c.1.1 +:+ " " +:+ c.1.2 +:+ render.NL) <$> calls).
Proof.
  intros Hraw. induction calls as [|[[label data] unit_] rest IH].
  - reflexivity.
  - cbn [render.renders]. unfold render.render at 1. rd_simpl. rewrite Hraw.
    rd_simpl. rewrite IH. reflexivity.
Qed.

Lemma raw_mode_prints_lines_witness :
  render.renders [("Temp: ", "21.5", "C"); ("Temp: ", "21.6", "C")] (render.__init__ true)
  = (Ok tt, render.__init__ true,
     (λ c, c.1.1 +:+ " " +:+ c.1.2 +:+ render.NL)
       <$> [("Temp: ", "21.5", "C"); ("Temp: ", "21.6", "C")]).
Proof. apply raw_mode_prints_lines. reflexivity. Defined.

(** X6. [getLine] is append-only and does not move the tracked cursor: whatever
    the renderer state, the entries already in the table are kept, the
    cursor position and the mode are unchanged, and for a label already in the
    table nothing at all is written or changed. *)
Theorem getLine_append_only (label : string) (s : render.state) :
  let result := render.getLine label s in
  let s' := snd (fst result) in
  render.current_pos s' = render.current_pos s
  ∧ render.isRaw s' = render.isRaw s
  ∧ (∀ l v, render.dict s !! l = Some v → render.dict s' !! l = Some v)
  ∧ (∀ v, render.dict s !! label = Some v → result = (Ok v, s, []))
  ∧ (render.dict s !! label = None →
     fst (fst result) = Ok (render.last_pos s + 1)
     ∧ render.last_pos s' = render.last_pos s + 1).
Proof.
  intros result s'. subst s' result.
  destruct (render.dict s !! label) as [v|] eqn:Hv.
  - rewrite (getLine_seen _ _ _ Hv). cbn [fst snd].
    split_and!; try reflexivity; try auto.
    + intros v' [= <-]. reflexivity.
    + discriminate.
  - destruct (getLine_new _ _ Hv) as [out ->]. cbn [fst snd render.current_pos
      render.isRaw render.dict render.last_pos].
    split_and!; try reflexivity.
    + intros l v Hl. rewrite lookup_insert_ne; [exact Hl | congruence].
    + discriminate.
    + auto.
Qed.

Lemma getLine_append_only_witness :
  render.getLine "a" (snd (fst (render.getLine "a" (render.__init__ false))))
  = (Ok 0, snd (fst (render.getLine "a" (render.__init__ false))), []).
Proof.
  apply (proj1 (proj2 (proj2 (proj2
           (getLine_append_only "a"
              (snd (fst (render.getLine "a" (render.__init__ false))))))))).
  reflexivity.
Defined.

Lemma moveCursor_here (s : render.state) :
  render.moveCursor (render.current_pos s) s = (Ok tt, s, []).
Proof.
  unfold render.moveCursor, render.set_current_pos, render.with_current_pos. rd_simpl.
  rewrite Z.ltb_irrefl. rd_simpl.
  assert (H : (render.current_pos s >? render.current_pos s) = false).
  { rewrite Z.gtb_ltb. apply Z.ltb_irrefl. }
  rewrite H. rd_simpl. destruct s; reflexivity.
Qed.

(** X7. Rendering the label the cursor already stands on moves nothing: in
    dashboard mode, when the table maps [label] to the current cursor
    position, the render writes only the clear-line sequence and the text,
    and leaves the renderer as it was. Every dashboard render leaves the
    renderer in such a state for its own label. *)
Theorem rerender_in_place (label data unit_ : string) (s : render.state) :
  render.isRaw s = false →
  render.dict s !! label = Some (render.current_pos s) →
  render.render label data unit_ s
  = (Ok tt, s,
     [render.ESC +:+ "[K"; label +:+ " " +:+ data +:+ " " +:+ unit_ +:+ render.CR]).
Proof.
  intros Hraw Hline.
  unfold render.render, render.printDashboard. rd_simpl. rewrite Hraw.
  rewrite (getLine_seen _ _ _ Hline). rd_simpl.
  rewrite moveCursor_here. rd_simpl. reflexivity.
Qed.

Lemma rerender_in_place_witness :
  let s := snd (fst (render.render "Temp: " "21.5" "C" (render.__init__ false))) in
  render.render "Temp: " "21.6" "C" s
  = (Ok tt, s,
     [render.ESC +:+ "[K"; "Temp: " +:+ " " +:+ "21.6" +:+ " " +:+ "C" +:+ render.CR]).
Proof.
  intros s. apply rerender_in_place; reflexivity.
Defined.

Lemma unpack_f_bad (frame : list byte) :
  length frame ≠ 4%nat → unpack_f frame = Raise StructError.
Proof.
  intros H. unfold unpack_f. apply Nat.eqb_neq in H. rewrite H. reflexivity.
Qed.

(** X8. A frame whose length differs from the width that the class unpacks is
    rejected: [read()] performs its one read, raises, returns no reading and
    changes nothing (on the Gen1 barometer also when no calibration is
    loaded, the length being checked first). *)
Theorem read_rejects_wrong_width
    (dev : device) (o : SensorBase) (ch : Characteristic) (n : nat) :
  data o = Some ch →
  frame_width (class o) = Some n →
  length (dev ch) ≠ n →
  Sensor.read dev o = (Raise (width_error (class o)), o, [CharRead ch]).
Proof.
  intros Hd Hw Hlen.
  destruct (Sensor_read_shape dev o) as (r & Hr & _). rewrite Hd in Hr.
  rewrite Hr. f_equal. f_equal.
  apply (f_equal (λ t, fst (fst t))) in Hr. cbn [fst] in Hr. rewrite <- Hr. clear Hr r.
  read_unfold. py_unfold. cbv beta iota zeta.
  destruct (class o) eqn:Hc; try discriminate Hw;
    injection Hw as <-;
    py_unfold; rewrite SensorBase_read_eq, Hd; cbv beta iota zeta; cbn [width_error].
  all: try (rewrite unpack_length_bad by exact Hlen; reflexivity).
  all: try (rewrite unpack_f_bad by exact Hlen; reflexivity).
  - unfold struct.unpack1. py_unfold. rewrite unpack_length_bad by exact Hlen. reflexivity.
  - destruct (dev ch) as [|b [|]]; try reflexivity. contradiction Hlen. reflexivity.
  - destruct (dev ch) as [|b [|]]; try reflexivity. contradiction Hlen. reflexivity.
Qed.

Lemma read_rejects_wrong_width_witness :
  Sensor.read (const_dev [Byte.x01; Byte.x02; Byte.x03])
    (snd (fst (Sensor.enable (const_dev []) (new HumiditySensor ""))))
  = (Raise StructError, snd (fst (Sensor.enable (const_dev []) (new HumiditySensor ""))),
     [CharRead (bound_data (new HumiditySensor ""))]).
Proof.
  exact (read_rejects_wrong_width (const_dev [Byte.x01; Byte.x02; Byte.x03])
           (snd (fst (Sensor.enable (const_dev []) (new HumiditySensor ""))))
           (bound_data (new HumiditySensor "")) 4%nat eq_refl eq_refl
           ltac:(discriminate)).
Defined.

Lemma bind_endpoints_idem (o : SensorBase) :
  bind_endpoints (bind_endpoints o) = bind_endpoints o.
Proof. reflexivity. Qed.

(** X9. [SensorBase.enable] binds each endpoint once: an endpoint that is bound,
    by an earlier [enable()] or otherwise, is kept, so a repeated call
    changes no attribute; it is not a no-op on the device, the enable
    payload being written again on every call. *)
Theorem enable_binds_once (o : SensorBase) :
  let first := Sensor.SensorBase_enable o in
  let o1 := snd (fst first) in
  let second := Sensor.SensorBase_enable o1 in
  fst (fst first) = Ok tt
  ∧ (∀ svc, service o = Some svc → service o1 = Some svc)
  ∧ (∀ c, ctrl o = Some c → ctrl o1 = Some c)
  ∧ (∀ c, data o = Some c → data o1 = Some c)
  ∧ second = (Ok tt, o1, snd first)
  ∧ snd first = match sensorOn (class o) with
                | Some payload => [CharWrite (bound_ctrl o) payload true]
                | None => []
                end.
Proof.
  intros first o1 second. subst second o1 first.
  rewrite !SensorBase_enable_eq. cbn [fst snd].
  split_and!; try reflexivity.
  - intros svc H. cbn. unfold bound_service. rewrite H. reflexivity.
  - intros c H. cbn. unfold bound_ctrl. rewrite H. reflexivity.
  - intros c H. cbn. unfold bound_data. rewrite H. reflexivity.
Qed.

Lemma enable_binds_once_witness :
  ctrl (snd (fst (Sensor.SensorBase_enable
                    (with_ctrl (Some (CharOf (ServiceOf 7) None)) (new GyroscopeSensor "")))))
  = Some (CharOf (ServiceOf 7) None).
Proof.
  apply (proj1 (proj2 (proj2 (enable_binds_once
           (with_ctrl (Some (CharOf (ServiceOf 7) None)) (new GyroscopeSensor "")))))).
  reflexivity.
Defined.

(** X10. [disable()] before any [enable()]: for the classes that inherit or call
    [SensorBase.disable] it writes nothing and raises nothing; the two
    keypress classes raise AttributeError, their descriptor attribute not
    existing yet; so does a Gen2 view, the control endpoint of the shared
    reader being unbound. In no case is anything written to the device. *)
Theorem disable_before_enable (c : sensor_class) (f : facade_class) (fw : string) :
  c ≠ MovementSensorMPU9250 →
  Sensor.disable (new c fw)
  = (match c with
     | KeypressSensor | KeypressSensorCC1352R => Raise AttributeError
     | _ => Ok tt
     end, new c fw, [])
  ∧ Facade.disable f (new MovementSensorMPU9250 fw)
    = (Raise AttributeError, new MovementSensorMPU9250 fw, []).
Proof.
  intros Hc. split.
  - destruct c; try contradiction; reflexivity.
  - destruct f; reflexivity.
Qed.

Lemma disable_before_enable_witness :
  Sensor.disable (new KeypressSensor "")
  = (Raise AttributeError, new KeypressSensor "", [])
  ∧ Facade.disable GyroscopeSensorMPU9250 (new MovementSensorMPU9250 "")
    = (Raise AttributeError, new MovementSensorMPU9250 "", []).
Proof. apply (disable_before_enable KeypressSensor GyroscopeSensorMPU9250 ""). discriminate. Defined.

(** X11. A calibration frame that is not 16 bytes long makes the Gen1
    barometer's [enable()] raise after the calibration-mode write and the
    read: the write that starts measuring is never sent, and the constants
    are left as they were. A [read()] of a barometer without constants then
    raises AttributeError on a well-formed frame. *)
Theorem barometer_bad_calibration (dev : device) (o : SensorBase) :
  class o = BarometerSensor →
  length (dev (cal_char o)) ≠ 16%nat →
  Sensor.enable dev o
  = (Raise StructError, with_calChr (Some (cal_char o)) (bind_endpoints o),
     [CharWrite (bound_ctrl o) [Byte.x02] true; CharRead (cal_char o)])
  ∧ cal (snd (fst (Sensor.enable dev o))) = cal o
  ∧ (∀ dev' : device,
       cal o = None → length (dev' (bound_data o)) = 4%nat →
       Sensor.read dev' (snd (fst (Sensor.enable dev o)))
       = (Raise AttributeError, snd (fst (Sensor.enable dev o)), [CharRead (bound_data o)])).
Proof.
  intros Hc Hlen.
  assert (Hen : Sensor.enable dev o
                = (Raise StructError, with_calChr (Some (cal_char o)) (bind_endpoints o),
                   [CharWrite (bound_ctrl o) [Byte.x02] true; CharRead (cal_char o)])).
  { unfold Sensor.enable. py_unfold. rewrite Hc.
    rewrite (BarometerSensor_enable_eq dev o Hc).
    rewrite unpack_length_bad by exact Hlen. reflexivity. }
  rewrite Hen. cbn [fst snd]. split_and!; [reflexivity | reflexivity |].
  intros dev' Hcal Hframe.
  read_unfold. py_unfold. cbv beta iota zeta.
  cbn [class with_calChr bind_endpoints with_data with_ctrl with_service].
  rewrite Hc. py_unfold. rewrite SensorBase_read_eq.
  cbn [data with_calChr bind_endpoints with_data with_ctrl with_service]. cbv iota.
  rewrite unpack_length_ok by exact Hframe.
  cbn [struct.fields]. unfold bind_endpoints. sn_simpl. rewrite Hcal. reflexivity.
Qed.

Lemma barometer_bad_calibration_witness :
  Sensor.enable (const_dev [Byte.x01]) (new BarometerSensor "")
  = (Raise StructError,
     with_calChr (Some (cal_char (new BarometerSensor ""))) (bind_endpoints (new BarometerSensor "")),
     [CharWrite (bound_ctrl (new BarometerSensor "")) [Byte.x02] true;
      CharRead (cal_char (new BarometerSensor ""))]).
Proof.
  apply (proj1 (barometer_bad_calibration (const_dev [Byte.x01]) (new BarometerSensor "")
                  eq_refl ltac:(discriminate))).
Defined.

(** X12. The battery level is the byte as it is: between 0 and 255, not clipped
    to 100. *)
Theorem battery_level_is_byte (dev : device) (o : SensorBase) (ch : Characteristic) (b : byte) :
  class o = BatterySensor ∨ class o = BatterySensorCC1352R →
  data o = Some ch → dev ch = [b] →
  Sensor.read dev o = (Ok (RInt (struct.byte_val b)), o, [CharRead ch])
  ∧ 0 <= struct.byte_val b <= 255.
Proof.
  intros Hc Hd Hframe. split; [|apply byte_val_range].
  read_unfold. py_unfold. cbv beta iota zeta.
  destruct Hc as [-> | ->]; py_unfold; rewrite SensorBase_read_eq, Hd, Hframe; reflexivity.
Qed.

Lemma battery_level_is_byte_witness :
  Sensor.read (const_dev [Byte.xff])
    (snd (fst (Sensor.enable (const_dev []) (new BatterySensor ""))))
  = (Ok (RInt 255), snd (fst (Sensor.enable (const_dev []) (new BatterySensor ""))),
     [CharRead (bound_data (new BatterySensor ""))]).
Proof.
  exact (proj1 (battery_level_is_byte (const_dev [Byte.xff])
                  (snd (fst (Sensor.enable (const_dev []) (new BatterySensor ""))))
                  (bound_data (new BatterySensor "")) Byte.xff
                  (or_introl eq_refl) eq_refl eq_refl)).
Defined.

Lemma facade_bits_disjoint (f g : facade_class) :
  f ≠ g → Z.land (Facade.bits f) (Facade.bits g) = 0.
Proof. destruct f, g; intros H; try contradiction; reflexivity. Qed.

Lemma facade_bits_small (f : facade_class) :
  Z.land (Facade.bits f) (Z.ones 9) = Facade.bits f.
Proof. destruct f; reflexivity. Qed.

Lemma small_range (c : Z) : Z.land c (Z.ones 9) = c → 0 <= c <= 65535.
Proof.
  intros H. rewrite Z.land_ones in H by lia.
  pose proof (Z.mod_pos_bound c (2 ^ 9) eq_refl) as Hb.
  rewrite H in Hb. change (2 ^ 9) with 512 in Hb. lia.
Qed.

Lemma pack_H_small (c : Z) :
  Z.land c (Z.ones 9) = c →
  struct.pack_H c = Ok [struct.byte_of c; struct.byte_of (c / 256)].
Proof.
  intros H. apply small_range in H. unfold struct.pack_H.
  destruct (0 <=? c) eqn:E1; [|apply Z.leb_nle in E1; lia].
  destruct (c <=? 65535) eqn:E2; [|apply Z.leb_nle in E2; lia].
  reflexivity.
Qed.

Lemma Facade_enable_eq (f : facade_class) (o : SensorBase) :
  class o = MovementSensorMPU9250 →
  let bits' := Z.lor (ctrlBits o) (Facade.bits f) in
  Facade.enable f o
  = match struct.pack_H bits' with
    | Ok payload =>
        (Ok tt, with_ctrlBits bits' (bind_endpoints o),
         [CharWrite (bound_ctrl o) payload false])
    | Raise e => (Raise e, with_ctrlBits bits' (bind_endpoints o), [])
    end.
Proof.
  intros Hc bits'. subst bits'.
  unfold Facade.enable, Sensor.MovementSensorMPU9250_enable, Sensor.write_ctrlBits.
  py_unfold. cbv beta. rewrite SensorBase_enable_eq, Hc. unfold bind_endpoints. sn_simpl.
  destruct (struct.pack_H _); reflexivity.
Qed.

Lemma Facade_disable_eq (f : facade_class) (o : SensorBase) (c : Characteristic) :
  ctrl o = Some c →
  let bits' := Z.land (ctrlBits o) (Z.lnot (Facade.bits f)) in
  Facade.disable f o
  = match struct.pack_H bits' with
    | Ok payload => (Ok tt, with_ctrlBits bits' o, [CharWrite c payload false])
    | Raise e => (Raise e, with_ctrlBits bits' o, [])
    end.
Proof.
  intros Hc bits'. subst bits'.
  unfold Facade.disable, Sensor.MovementSensorMPU9250_disable, Sensor.write_ctrlBits.
  sn_simpl. rewrite Hc. sn_simpl.
  destruct (struct.pack_H _); reflexivity.
Qed.

(** X13. The three Gen2 views share one 16-bit control register without
    disturbing one another. With the register within its nine defined bits
    (as it is after construction), enabling a view sets exactly its bits and
    disabling a view clears exactly its bits: the bits of any other view read
    the same before and after, the register stays within the nine bits, the
    write never fails, and the payload written is the register, little-endian. *)
Theorem mpu9250_views_share_register (f : facade_class) (o : SensorBase) :
  class o = MovementSensorMPU9250 →
  Z.land (ctrlBits o) (Z.ones 9) = ctrlBits o →
  let en := Facade.enable f o in
  let on := Z.lor (ctrlBits o) (Facade.bits f) in
  let off := Z.land (ctrlBits o) (Z.lnot (Facade.bits f)) in
  en = (Ok tt, with_ctrlBits on (bind_endpoints o),
        [CharWrite (bound_ctrl o) [struct.byte_of on; struct.byte_of (on / 256)] false])
  ∧ Z.land on (Facade.bits f) = Facade.bits f
  ∧ Z.land on (Z.ones 9) = on
  ∧ (∀ g, g ≠ f → Z.land on (Facade.bits g) = Z.land (ctrlBits o) (Facade.bits g))
  ∧ (∀ c, ctrl o = Some c →
       Facade.disable f o
       = (Ok tt, with_ctrlBits off o,
          [CharWrite c [struct.byte_of off; struct.byte_of (off / 256)] false]))
  ∧ Z.land off (Facade.bits f) = 0
  ∧ Z.land off (Z.ones 9) = off
  ∧ (∀ g, g ≠ f → Z.land off (Facade.bits g) = Z.land (ctrlBits o) (Facade.bits g)).
Proof.
  intros Hc Hsmall en on off.
  assert (Hon : Z.land on (Z.ones 9) = on).
  { unfold on. rewrite Z.land_lor_distr_l, Hsmall, facade_bits_small. reflexivity. }
  assert (Hoff : Z.land off (Z.ones 9) = off).
  { unfold off. rewrite <- Z.land_assoc, (Z.land_comm (Z.lnot _)), Z.land_assoc, Hsmall.
    reflexivity. }
  split_and!.
  - unfold en. rewrite (Facade_enable_eq f o Hc). fold on. rewrite (pack_H_small on Hon).
    reflexivity.
  - unfold on. rewrite Z.land_lor_distr_l, Z.land_diag.
    apply Z.bits_inj'. intros n Hn. rewrite Z.lor_spec, Z.land_spec.
    destruct (Z.testbit (ctrlBits o) n), (Z.testbit (Facade.bits f) n); reflexivity.
  - exact Hon.
  - intros g Hg. unfold on.
    rewrite Z.land_lor_distr_l, (facade_bits_disjoint f g) by congruence.
    apply Z.lor_0_r.
  - intros c Hctrl. rewrite (Facade_disable_eq f o c Hctrl). fold off.
    rewrite (pack_H_small off Hoff). reflexivity.
  - unfold off. rewrite <- Z.land_assoc, (Z.land_comm (Z.lnot _)), Z.land_lnot_diag.
    apply Z.land_0_r.
  - exact Hoff.
  - intros g Hg. unfold off.
    apply Z.bits_inj'. intros n Hn. rewrite !Z.land_spec, Z.lnot_spec by exact Hn.
    pose proof (facade_bits_disjoint f g ltac:(congruence)) as Hdis.
    apply (f_equal (λ v, Z.testbit v n)) in Hdis.
    rewrite Z.land_spec, Z.bits_0 in Hdis.
    destruct (Z.testbit (ctrlBits o) n), (Z.testbit (Facade.bits f) n),
      (Z.testbit (Facade.bits g) n); simpl in *; congruence.
Qed.

Lemma mpu9250_views_share_register_witness :
  let o := snd (fst (Facade.enable GyroscopeSensorMPU9250 (new MovementSensorMPU9250 ""))) in
  Z.land (Z.land (ctrlBits o) (Z.lnot (Facade.bits AccelerometerSensorMPU9250)))
         (Facade.bits GyroscopeSensorMPU9250)
  = Z.land (ctrlBits o) (Facade.bits GyroscopeSensorMPU9250).
Proof.
  intros o.
  apply (proj2 (proj2 (proj2 (proj2 (proj2 (proj2 (proj2
           (mpu9250_views_share_register AccelerometerSensorMPU9250 o eq_refl eq_refl)))))))).
  discriminate.
Defined.

Lemma le_uint2_range (b0 b1 : byte) :
  0 <= struct.byte_val b0 + 256 * struct.byte_val b1 < 65536.
Proof.
  pose proof (byte_val_range b0). pose proof (byte_val_range b1). lia.
Qed.

Lemma field_B_value (b : byte) : struct.field struct.B_ [b] = struct.byte_val b.
Proof. unfold struct.field. cbn [struct.le_uint struct.width struct.signed andb]. lia. Qed.

Lemma uword_range (frame : list byte) (i : nat) : 0 <= uword frame i < 65536.
Proof. apply le_uint2_range. Qed.

Lemma sword_range (frame : list byte) (i : nat) : -32768 <= sword frame i < 32768.
Proof.
  unfold sword. pose proof (uword_range frame i).
  destruct (32768 <=? uword frame i) eqn:E; [apply Z.leb_le in E | apply Z.leb_gt in E]; lia.
Qed.

Lemma sword_cases (frame : list byte) (i : nat) :
  sword frame i = uword frame i ∨ sword frame i = uword frame i - 65536.
Proof. unfold sword. destruct (32768 <=? uword frame i); auto. Qed.

Lemma opt3001_fields (raw u : Z) :
  0 <= u < 65536 → raw = u ∨ raw = u - 65536 →
  Z.land raw 0xFFF = u mod 4096
  ∧ Z.shiftr (Z.land raw 0xF000) 12 = u / 4096.
Proof.
  intros Hu Hraw. split.
  - change 0xFFF with (Z.ones 12). rewrite Z.land_ones by lia. change (2 ^ 12) with 4096.
    destruct Hraw as [-> | ->]; [reflexivity|].
    replace (u - 65536) with (u + (-16) * 4096) by lia. apply Z_mod_plus_full.
  - change 0xF000 with (Z.shiftl (Z.ones 4) 12).
    rewrite Z.shiftr_land, Z.shiftr_shiftl_l by lia.
    change (Z.shiftl (Z.ones 4) (12 - 12)) with (Z.ones 4).
    rewrite Z.land_ones, Z.shiftr_div_pow2 by lia.
    change (2 ^ 12) with 4096. change (2 ^ 4) with 16.
    assert (Hq : 0 <= u / 4096 < 16).
    { split; [apply Z.div_pos; lia | apply Z.div_lt_upper_bound; lia]. }
    destruct Hraw as [-> | ->].
    + apply Z.mod_small, Hq.
    + replace (u - 65536) with (u + (-16) * 4096) by lia.
      rewrite Z.div_add by lia.
      replace (u / 4096 + -16) with (u / 4096 + (-1) * 16) by lia.
      rewrite Z_mod_plus_full. apply Z.mod_small, Hq.
Qed.

Lemma allz_spec (f : Z → bool) (k : nat) :
  ∀ lo, allz f k lo = true → ∀ z, lo <= z < lo + 2 ^ Z.of_nat k → f z = true.
Proof.
  induction k as [|k IH]; intros lo H z Hz.
  - cbn in *. replace z with lo by lia. exact H.
  - cbn [allz] in H. apply andb_prop in H as [H1 H2].
    rewrite Nat2Z.inj_succ, Z.pow_succ_r in Hz by lia.
    destruct (Z_lt_le_dec z (lo + 2 ^ Z.of_nat k)).
    + apply (IH lo H1). lia.
    + apply (IH _ H2). lia.
Qed.

(** ** The sign of a double *)

Lemma sign_round_false (m e : Z) (l : SpecFloat.location) :
  double.sign (SpecFloat.binary_round_aux double.prec double.emax false m e l) = false.
Proof.
  unfold SpecFloat.binary_round_aux.
  destruct (SpecFloat.shr_fexp _ _ m e l) as [mrs' e'].
  destruct (SpecFloat.shr_fexp _ _ _ e' _) as [mrs'' e''].
  destruct (SpecFloat.shr_m mrs''); [reflexivity | | reflexivity].
  destruct (Z.leb _ _); reflexivity.
Qed.

Lemma sign_of_Z (n : Z) : 0 <= n → double.sign (double.of_Z n) = false.
Proof.
  intros Hn. unfold double.of_Z, SpecFloat.binary_normalize.
  destruct n as [|p|p]; [reflexivity | | lia].
  unfold SpecFloat.binary_round.
  destruct (SpecFloat.shl_align _ _ _) as [mz ez]. apply sign_round_false.
Qed.

Lemma sign_mul (x y : double.t) :
  double.sign x = false → double.sign y = false → double.sign (x * y)%D = false.
Proof.
  destruct x as [sx|sx| |sx mx ex], y as [sy|sy| |sy my ey]; cbn [double.sign];
    intros Hx Hy; subst; try reflexivity.
  apply sign_round_false.
Qed.

(** X14. The Gen2 light sensor: although the frame is unpacked as a signed
    16-bit value, the reading is that of the unsigned word [u]: the product,
    in double arithmetic, of the literal 0.01 and the 12-bit mantissa
    [u mod 4096] shifted by the 4-bit exponent [u / 4096]; its sign bit is
    never set. Neither the literal nor the product is exact: for the word
    0x0010 the result is the double nearest to 0.16, for the word 0x0023 it
    is not the double nearest to 0.35. *)
Theorem opt3001_lux (dev : device) (o : SensorBase) (ch : Characteristic) (b0 b1 : byte) :
  class o = OpticalSensorOPT3001 → data o = Some ch → dev ch = [b0; b1] →
  let u := struct.byte_val b0 + 256 * struct.byte_val b1 in
  let m := u mod 4096 in
  let e := u / 4096 in
  Sensor.read dev o
  = (Ok (RFloat (of_double (opt3001_lux_of (m * 2 ^ e)))), o, [CharRead ch])
  ∧ 0 <= m < 4096 ∧ 0 <= e < 16
  ∧ double.sign (opt3001_lux_of (m * 2 ^ e)) = false
  ∧ opt3001_lux_of 16 = double.lit 16 (-2)
  ∧ opt3001_lux_of 35 ≠ double.lit 35 (-2).
Proof.
  intros Hc Hd Hframe u m e.
  pose proof (le_uint2_range b0 b1) as Hu. fold u in Hu.
  assert (Hm : 0 <= m < 4096) by (apply Z.mod_pos_bound; lia).
  assert (He : 0 <= e < 16).
  { split; [apply Z.div_pos; lia | apply Z.div_lt_upper_bound; lia]. }
  split_and!; try lia.
  - read_unfold. py_unfold. cbv beta iota zeta. rewrite Hc. py_unfold.
    rewrite SensorBase_read_eq, Hd, Hframe. cbv beta iota zeta.
    rewrite unpack1_h_short by reflexivity. rewrite field_h_sword.
    destruct (opt3001_fields (sword [b0; b1] 0) u Hu (sword_cases _ _)) as [Hmant Hexp].
    rewrite Hmant, Hexp. fold m e. rewrite Z.shiftl_mul_pow2 by lia. reflexivity.
  - apply sign_mul; [reflexivity|]. apply sign_of_Z.
    apply Z.mul_nonneg_nonneg; [lia | apply Z.pow_nonneg; lia].
  - vm_compute. reflexivity.
  - vm_compute. discriminate.
Qed.

Lemma opt3001_lux_witness :
  Sensor.read (const_dev [Byte.x23; Byte.x00])
    (snd (fst (Sensor.enable (const_dev []) (new OpticalSensorOPT3001 ""))))
  = (Ok (RFloat (Fl (6305039478318695 # 18014398509481984))),
     snd (fst (Sensor.enable (const_dev []) (new OpticalSensorOPT3001 ""))),
     [CharRead (bound_data (new OpticalSensorOPT3001 ""))]).
Proof.
  exact (proj1 (opt3001_lux (const_dev [Byte.x23; Byte.x00])
                  (snd (fst (Sensor.enable (const_dev []) (new OpticalSensorOPT3001 ""))))
                  (bound_data (new OpticalSensorOPT3001 "")) Byte.x23 Byte.x00
                  eq_refl eq_refl eq_refl)).
Defined.

(** X15. The Gen2 barometer frame holds two unsigned 24-bit little-endian
    numbers, temperature then pressure, in hundredths: neither reading is
    ever negative and both are below 2^24/100. *)
Theorem bmp280_little_endian_24
    (dev : device) (o : SensorBase) (ch : Characteristic) (tL tM tH pL pM pH : byte) :
  class o = BarometerSensorBMP280 → data o = Some ch →
  dev ch = [tL; tM; tH; pL; pM; pH] →
  let t := struct.le_uint [tL; tM; tH] in
  let p := struct.le_uint [pL; pM; pH] in
  Sensor.read dev o
  = (Ok (RTuple [Fl (inject_Z t / 100); Fl (inject_Z p / 100)]), o, [CharRead ch])
  ∧ 0 <= t < 2 ^ 24 ∧ 0 <= p < 2 ^ 24.
Proof.
  intros Hc Hd Hframe t p.
  pose proof (byte_val_range tL). pose proof (byte_val_range tM).
  pose proof (byte_val_range tH). pose proof (byte_val_range pL).
  pose proof (byte_val_range pM). pose proof (byte_val_range pH).
  split_and!; try (unfold t, p; cbn [struct.le_uint]; lia).
  read_unfold. py_unfold. cbv beta iota zeta. rewrite Hc. py_unfold.
  rewrite SensorBase_read_eq, Hd, Hframe. cbv beta iota zeta.
  rewrite unpack_length_ok by reflexivity.
  cbn [struct.fields replicate struct.width take drop]. rewrite !field_B_value.
  sn_simpl.
  replace (struct.byte_val tH * 65536 + struct.byte_val tM * 256 + struct.byte_val tL)
    with t by (unfold t; cbn [struct.le_uint]; lia).
  replace (struct.byte_val pH * 65536 + struct.byte_val pM * 256 + struct.byte_val pL)
    with p by (unfold p; cbn [struct.le_uint]; lia).
  reflexivity.
Qed.

Lemma bmp280_little_endian_24_witness :
  Sensor.read (const_dev [Byte.x01; Byte.x02; Byte.x03; Byte.x04; Byte.x05; Byte.x06])
    (snd (fst (Sensor.enable (const_dev []) (new BarometerSensorBMP280 ""))))
  = (Ok (RTuple [Fl (inject_Z (struct.le_uint [Byte.x01; Byte.x02; Byte.x03]) / 100);
                 Fl (inject_Z (struct.le_uint [Byte.x04; Byte.x05; Byte.x06]) / 100)]),
     snd (fst (Sensor.enable (const_dev []) (new BarometerSensorBMP280 ""))),
     [CharRead (bound_data (new BarometerSensorBMP280 ""))]).
Proof.
  exact (proj1 (bmp280_little_endian_24
                  (const_dev [Byte.x01; Byte.x02; Byte.x03; Byte.x04; Byte.x05; Byte.x06])
                  (snd (fst (Sensor.enable (const_dev []) (new BarometerSensorBMP280 ""))))
                  (bound_data (new BarometerSensorBMP280 ""))
                  Byte.x01 Byte.x02 Byte.x03 Byte.x04 Byte.x05 Byte.x06
                  eq_refl eq_refl eq_refl)).
Defined.

Lemma land_FFFC_div (v : Z) : 0 <= v < 65536 → Z.land v 0xFFFC = 4 * (v / 4).
Proof.
  intros Hv.
  assert (H : Z.land v 0xFFFC = v - v mod 4).
  { change 0xFFFC with (Z.land (Z.ones 16) (Z.lnot 3)).
    rewrite Z.land_assoc, (Z.land_ones v 16) by lia.
    rewrite (Z.mod_small v (2 ^ 16)) by (change (2 ^ 16) with 65536; lia).
    rewrite <- Z.sub_land_same_l.
    assert (H3 : Z.land v 3 = v mod 4).
    { change 3 with (Z.ones 2). rewrite Z.land_ones by lia. reflexivity. }
    rewrite H3. reflexivity. }
  rewrite H. pose proof (Z.div_mod v 4). lia.
Qed.

Lemma RH_ok_all :
  let c0 := double.lit (-60) (-1) in
  let c1 := double.lit 1250 (-1) in
  let c2 := double.lit 655360 (-1) in
  allz (RH_ok c0 c1 c2) 14 0 = true.
Proof. vm_cast_no_check (eq_refl true). Qed.

(** X16. The Gen1 humidity sensor, in the arithmetic of the code. The
    relative humidity is computed without any rounding: for every four-byte
    frame it is -6 + 125 h / 65536 for the humidity word [h] with its two
    status bits masked off, and lies in [-6, 119), so that it is not confined
    to 0..100. The temperature is the double sum and product of the formula
    over the first word; for the word 0 it is the double of the literal
    -46.85, which lies below -46.85. *)
Theorem humidity_gen1_ranges
    (dev : device) (o : SensorBase) (ch : Characteristic) (b0 b1 b2 b3 : byte) :
  class o = HumiditySensor → data o = Some ch → dev ch = [b0; b1; b2; b3] →
  let rawT := struct.byte_val b0 + 256 * struct.byte_val b1 in
  let rawH := struct.byte_val b2 + 256 * struct.byte_val b3 in
  ∃ RH : Q,
    Sensor.read dev o
    = (Ok (RTuple [of_double (gen1_temp rawT); Fl RH]), o, [CharRead ch])
    ∧ of_double (gen1_RH rawH) = Fl RH
    ∧ (RH == -6 + 125 * (inject_Z (Z.land rawH 0xFFFC) / 65536))%Q
    ∧ (-6 <= RH)%Q ∧ (RH < 119)%Q
    ∧ gen1_temp 0 = double.lit (-4685) (-2)
    ∧ (double.to_Q (double.lit (-4685) (-2)) < dec (-4685) (-2))%Q.
Proof.
  intros Hc Hd Hframe rawT rawH.
  pose proof (le_uint2_range b2 b3) as HH. fold rawH in HH.
  assert (Hj : 0 <= rawH / 4 < 0 + 2 ^ Z.of_nat 14).
  { change (0 + 2 ^ Z.of_nat 14) with 16384.
    split; [apply Z.div_pos; lia | apply Z.div_lt_upper_bound; lia]. }
  pose proof (allz_spec _ _ _ RH_ok_all (rawH / 4) Hj) as Hh. cbv zeta in Hh.
  unfold RH_ok in Hh. rewrite <- (land_FFFC_div rawH HH) in Hh.
  fold (gen1_RH rawH) in Hh.
  destruct (of_double (gen1_RH rawH)) as [RH| | | |] eqn:HRH; try discriminate Hh.
  apply andb_prop in Hh as [Hh Hhup]. apply andb_prop in Hh as [Heq Hhlow].
  apply Qle_bool_iff in Hhlow. apply Qeq_bool_iff in Heq. apply negb_true_iff in Hhup.
  exists RH. split_and!; try assumption; try reflexivity.
  - read_unfold. py_unfold. cbv beta iota zeta. rewrite Hc. py_unfold.
    rewrite SensorBase_read_eq, Hd, Hframe. cbv beta iota zeta.
    rewrite unpack_length_ok by reflexivity.
    cbn [struct.fields struct.width take drop]. rewrite !field_H_uword. words. sn_simpl.
    fold rawT rawH. fold (gen1_temp rawT) (gen1_RH rawH). rewrite HRH. reflexivity.
  - apply Qnot_le_lt. intros H. apply Qle_bool_iff in H. congruence.
Qed.

Lemma humidity_gen1_ranges_witness :
  ∃ RH : Q,
    Sensor.read (const_dev [Byte.xff; Byte.xff; Byte.xff; Byte.xff])
      (snd (fst (Sensor.enable (const_dev []) (new HumiditySensor ""))))
    = (Ok (RTuple [of_double (gen1_temp 65535); Fl RH]),
       snd (fst (Sensor.enable (const_dev []) (new HumiditySensor ""))),
       [CharRead (bound_data (new HumiditySensor ""))])
    ∧ (RH == -6 + 125 * (65532 / 65536))%Q ∧ (RH < 119)%Q.
Proof.
  destruct (humidity_gen1_ranges (const_dev [Byte.xff; Byte.xff; Byte.xff; Byte.xff])
              (snd (fst (Sensor.enable (const_dev []) (new HumiditySensor ""))))
              (bound_data (new HumiditySensor ""))
              Byte.xff Byte.xff Byte.xff Byte.xff eq_refl eq_refl eq_refl)
    as (RH & Hr & _ & Heq & _ & Hh & _).
  exists RH. split_and!; assumption.
Defined.

Lemma at_unchanged {A} (r : string) (m : Sensor.M A) (t : SensorTag) :
  (∀ o, snd (fst (m o)) = o) → snd (fst (Tag.at_ r m t)) = t.
Proof.
  intros Hm. unfold Tag.at_. destruct (heap t !! r) as [[o|f sensor]|] eqn:Hr; cbn; auto.
  specialize (Hm o). destruct (m o) as [[res o1] trace]. cbn in *. subst o1.
  rewrite insert_id by exact Hr. destruct t; reflexivity.
Qed.

Lemma at_trace {A} (r : string) (m : Sensor.M A) (t : SensorTag) :
  snd (Tag.at_ r m t) = [] ∨ ∃ o, heap t !! r = Some (Sensor o) ∧ snd (Tag.at_ r m t) = snd (m o).
Proof.
  unfold Tag.at_. destruct (heap t !! r) as [[o|f sensor]|]; cbn; auto.
  right. exists o. split; [reflexivity|]. destruct (m o) as [[res o1] trace]. reflexivity.
Qed.

Lemma Tag_read_eq (dev : device) (r : string) (t : SensorTag) :
  Tag.read dev r t
  = match heap t !! r with
    | Some (Sensor _) => Tag.at_ r (Sensor.read dev) t
    | Some (View f sensor) => Tag.at_ sensor (Facade.read f dev) t
    | None => (Raise AttributeError, t, [])
    end.
Proof.
  unfold Tag.read. py_unfold. cbv beta iota zeta.
  destruct (heap t !! r) as [[o|f sensor]|]; [| |reflexivity].
  - destruct (Tag.at_ r (Sensor.read dev) t) as [[? ?] ?]. reflexivity.
  - destruct (Tag.at_ sensor (Facade.read f dev) t) as [[? ?] ?]. reflexivity.
Qed.

(** X17. [read()] only reads. Called on any attribute of any tag, on a driver
    or on a view, whether it returns or raises, it leaves every driver
    object and the rest of the tag as they were, and all it does on the
    device is at most one read of a characteristic: it never writes. *)
Theorem read_only_reads (dev : device) (r : string) (t : SensorTag) :
  snd (fst (Tag.read dev r t)) = t
  ∧ (snd (Tag.read dev r t) = [] ∨ ∃ ch, snd (Tag.read dev r t) = [CharRead ch]).
Proof.
  rewrite Tag_read_eq.
  destruct (heap t !! r) as [[o|f sensor]|] eqn:Hr; cbn [fst snd]; [| |auto].
  - split.
    + apply at_unchanged. intros o1.
      destruct (Sensor_read_shape dev o1) as (? & -> & _). reflexivity.
    + destruct (at_trace r (Sensor.read dev) t) as [H | (o1 & _ & H)]; [auto|].
      rewrite H. destruct (Sensor_read_shape dev o1) as (? & -> & _). cbn [snd].
      destruct (data o1); eauto.
  - split.
    + apply at_unchanged. intros o1. rewrite Facade_read_eq. destruct (data o1); reflexivity.
    + destruct (at_trace sensor (Facade.read f dev) t) as [H | (o1 & _ & H)]; [auto|].
      rewrite H, Facade_read_eq. destruct (data o1); cbn [snd]; eauto.
Qed.

(** X18. The driver registry of the two later generations. A CC2650 tag has a
    driver for each of the nine roles that [main] can select. A CC1352R tag
    defines all nine attributes and lacks a driver for exactly three of
    them, magnetometer, barometer and gyroscope: for these [main] prints the
    warning without touching the device and the poll skips the role; its
    accelerometer has a driver but is never polled. *)
Theorem registry_of_later_generations
    (svcs : gmap UUID Service) (fwVers : list string) (dev : device) (r : role) :
  let t2 := SensorTag__init__ SENSORTAG_2650 svcs fwVers in
  let t3 := SensorTag__init__ SENSORTAG_1352R svcs fwVers in
  attrs t2 !! role_attr r = Some (Ref (role_attr r))
  ∧ is_Some (heap t2 !! role_attr r)
  ∧ (if bool_decide (r = magnetometer ∨ r = barometer ∨ r = gyroscope)
     then attrs t3 !! role_attr r = Some PyNone
          ∧ Tag.main_enable dev (role_tag_name r) (role_attr r) t3
            = (Ok tt, t3,
               [Print ("Warning : no " +:+ " " +:+ role_tag_name r +:+ " " +:+ " on this device")])
          ∧ Tag.main_poll dev (role_attr r) t3 = (Ok None, t3, [])
     else attrs t3 !! role_attr r = Some (Ref (role_attr r))
          ∧ is_Some (heap t3 !! role_attr r))
  ∧ Tag.main_poll dev (role_attr accelerometer) t3 = (Ok None, t3, []).
Proof.
  intros t2 t3.
  destruct r; split_and!; try reflexivity; try (vm_compute; eauto; fail).
  all: try (rewrite bool_decide_eq_true_2 by auto; split_and!; reflexivity).
  all: try (rewrite bool_decide_eq_false_2 by (intros [H|[H|H]]; discriminate);
            split; [reflexivity | vm_compute; eauto]).
Qed.

Lemma main_loop_counts (count : Z) (n : nat) :
  count ≠ 0 → ∀ counter,
    Z.max counter count = counter + Z.of_nat n →
    main_loop (S n) count counter = Some (Z.of_nat n + 1, Z.of_nat n).
Proof.
  intros Hne. induction n as [|n IH]; intros counter Hmax.
  - cbn [main_loop].
    destruct (counter >=? count) eqn:E; [|rewrite Z.geb_leb in E; apply Z.leb_gt in E; lia].
    destruct (count =? 0) eqn:E0; [apply Z.eqb_eq in E0; contradiction|].
    reflexivity.
  - change (main_loop (S (S n)) count counter)
      with (if (counter >=? count) && negb (count =? 0) then Some (1, 0)
            else match main_loop (S n) count (counter + 1) with
                 | Some (polls, waits) => Some (polls + 1, waits + 1)
                 | None => None
                 end).
    destruct (counter >=? count) eqn:E; [rewrite Z.geb_leb in E; apply Z.leb_le in E; lia|].
    cbn [andb]. rewrite (IH (counter + 1)) by lia.
    f_equal. f_equal; lia.
Qed.

Lemma main_loop_forever (fuel : nat) : ∀ counter, main_loop fuel 0 counter = None.
Proof.
  induction fuel as [|fuel IH]; intros counter; [reflexivity|].
  cbn [main_loop]. change (0 =? 0) with true. rewrite andb_false_r, IH. reflexivity.
Qed.

(** X19. The number of poll cycles of [main]: with a count of [n >= 1] the loop
    polls [n] times and waits [n - 1] times; a negative count polls once; a
    count of 0 never leaves the loop. *)
Theorem poll_cycles (count : Z) :
  (count ≠ 0 →
   let n := Z.max 1 count in
   main_loop (Z.to_nat n) count 1 = Some (n, n - 1))
  ∧ (∀ fuel, main_loop fuel 0 1 = None).
Proof.
  split; [|intros fuel; apply main_loop_forever].
  intros Hne n.
  assert (Hn : 1 <= n) by (unfold n; lia).
  replace (Z.to_nat n) with (S (Z.to_nat (n - 1))) by lia.
  rewrite (main_loop_counts count (Z.to_nat (n - 1)) Hne 1) by (unfold n in *; lia).
  f_equal. f_equal; lia.
Qed.

Lemma poll_cycles_witness : main_loop 3 3 1 = Some (3, 2).
Proof. exact (proj1 (poll_cycles 3) ltac:(discriminate)). Defined.

(** X20. What [main] disables when the loop ends: nothing on a v1 or a CC2650
    tag, whose sensors stay enabled; on a CC1352R tag the accelerometer,
    whose three notification descriptors are switched off before the
    control write. *)
Theorem exit_disables_gen3_accelerometer
    (svcs : gmap UUID Service) (fwVers : list string) (dev : device) :
  (∀ t, version t ≠ SENSORTAG_1352R → main_exit t = (Ok tt, t, []))
  ∧ (let t0 := SensorTag__init__ SENSORTAG_1352R svcs fwVers in
     let t := snd (fst (Tag.main_enable dev "accelerometer" "accelerometer" t0)) in
     let svc := ServiceOf (_TI_UUID 0xFFA0) in
     fst (fst (main_exit t)) = Ok tt
     ∧ snd (main_exit t)
       = [DescWrite (DescrOf svc 0x2902 0) [Byte.x00; Byte.x00] true;
          DescWrite (DescrOf svc 0x2902 1) [Byte.x00; Byte.x00] true;
          DescWrite (DescrOf svc 0x2902 2) [Byte.x00; Byte.x00] true;
          CharWrite (CharOf svc (Some (_TI_UUID 0xFFA1))) [Byte.x00] false]).
Proof.
  split.
  - intros t Hv. unfold main_exit. py_unfold.
    destruct (String.eqb (version t) SENSORTAG_1352R) eqn:E; [|reflexivity].
    apply String.eqb_eq in E. contradiction.
  - split; reflexivity.
Qed.

Lemma exit_disables_gen3_accelerometer_witness :
  main_exit (SensorTag__init__ SENSORTAG_2650 ∅ [])
  = (Ok tt, SensorTag__init__ SENSORTAG_2650 ∅ [], []).
Proof.
  apply (proj1 (exit_disables_gen3_accelerometer ∅ [] (const_dev []))).
  discriminate.
Defined.

(** X21. The three Gen2 views decode disjoint slices of one 18-byte frame,
    the gyroscope the words 0 to 2, the accelerometer the words 3 to 5, the
    magnetometer the words 6 to 8: no word is read by two views. Each
    component is the signed word multiplied, in double arithmetic, by the
    scale of the view. At full scale the accelerometer gives -8 and
    32767/4096 exactly; the scale of the magnetometer, 4912/32760, is
    rounded and so is the product, which for the word -32764 is not the
    double nearest to the real product. *)
Theorem mpu9250_view_slices
    (f : facade_class) (dev : device) (o : SensorBase) (ch : Characteristic) :
  data o = Some ch → length (dev ch) = 18%nat →
  Facade.read f dev o
  = (Ok (RTuple [view_component f (dev ch) 0; view_component f (dev ch) 1;
                 view_component f (dev ch) 2]), o, [CharRead ch])
  ∧ (∀ (g : facade_class) (i j : nat),
       (i < 3)%nat → (j < 3)%nat →
       (slice_start f + i = slice_start g + j)%nat → f = g ∧ i = j)
  ∧ (∀ i : nat, (i < 3)%nat → (slice_start f + i < 9)%nat)
  ∧ (∀ i : nat, -32768 <= sword (dev ch) i < 32768)
  ∧ (double.to_Q (double.of_Z (-32768) * Facade.scale AccelerometerSensorMPU9250)%D == -8)%Q
  ∧ (double.to_Q (double.of_Z 32767 * Facade.scale AccelerometerSensorMPU9250)%D
     == 32767 / 4096)%Q
  ∧ (double.of_Z (-32764) * Facade.scale MagnetometerSensorMPU9250)%D
    ≠ double.of_Q ((-32764 * 4912) # 32760).
Proof.
  intros Hd Hlen. split_and!.
  - apply Facade_read_components; assumption.
  - intros g i j Hi Hj Heq. destruct f, g; cbn [slice_start] in Heq; split; (reflexivity || lia).
  - intros i Hi. destruct f; cbn [slice_start]; lia.
  - intros i. apply sword_range.
  - vm_compute. reflexivity.
  - vm_compute. reflexivity.
  - vm_compute. discriminate.
Qed.

Lemma mpu9250_view_slices_witness :
  Facade.read AccelerometerSensorMPU9250 (const_dev (replicate 18 Byte.xff))
    (snd (fst (Facade.enable AccelerometerSensorMPU9250 (new MovementSensorMPU9250 ""))))
  = (Ok (RTuple [Fl (-4503599627370496 # 18446744073709551616);
                 Fl (-4503599627370496 # 18446744073709551616);
                 Fl (-4503599627370496 # 18446744073709551616)]),
     snd (fst (Facade.enable AccelerometerSensorMPU9250 (new MovementSensorMPU9250 ""))),
     [CharRead (bound_data (new MovementSensorMPU9250 ""))]).
Proof.
  exact (proj1 (mpu9250_view_slices AccelerometerSensorMPU9250
                  (const_dev (replicate 18 Byte.xff))
                  (snd (fst (Facade.enable AccelerometerSensorMPU9250
                               (new MovementSensorMPU9250 ""))))
                  (bound_data (new MovementSensorMPU9250 "")) eq_refl eq_refl)).
Defined.

(** X22. The firmware revision and the Gen1 accelerometer. The tag keeps the
    value of the first firmware revision characteristic, or the empty
    string when there is none; a v1 tag builds its accelerometer driver from
    it, so that without a firmware revision the scale is 16. Autodetection
    yields one of the three versions, and v1 whenever the optical service is
    absent, the ADXL362 service being looked for only below the optical
    one. *)
Theorem firmware_and_detection (svcs : gmap UUID Service) (fwVers : list string) :
  let fw := default "" (head fwVers) in
  firmwareVersion (SensorTag__init__ AUTODETECT svcs fwVers) = fw
  ∧ heap (SensorTag__init__ SENSORTAG_V1 svcs fwVers) !! "accelerometer"
    = Some (Sensor (AccelerometerSensor__init__ fw))
  ∧ (fwVers = [] → scale (AccelerometerSensor__init__ fw) = 16%Q)
  ∧ (detect svcs = SENSORTAG_V1 ∨ detect svcs = SENSORTAG_2650
     ∨ detect svcs = SENSORTAG_1352R)
  ∧ (¬ is_Some (svcs !! _TI_UUID 0xAA70) → detect svcs = SENSORTAG_V1)
  ∧ SensorTag__init__ AUTODETECT svcs fwVers = SensorTag__init__ (detect svcs) svcs fwVers.
Proof.
  intros fw. subst fw.
  assert (Hfw : ∀ v, firmwareVersion (SensorTag__init__ v svcs fwVers)
                     = default "" (head fwVers)).
  { intros v. unfold SensorTag__init__. cbv zeta.
    repeat match goal with |- context [if ?b then _ else _] => destruct b end;
      destruct fwVers; reflexivity. }
  split_and!.
  - apply Hfw.
  - destruct fwVers; reflexivity.
  - intros ->. reflexivity.
  - unfold detect. destruct (contains svcs _); [destruct (contains svcs _)|]; auto.
  - intros Hno. unfold detect. apply contains_not_Some in Hno. rewrite Hno. reflexivity.
  - unfold SensorTag__init__ at 1. change (String.eqb AUTODETECT AUTODETECT) with true.
    cbv iota. unfold SensorTag__init__.
    assert (Hd : String.eqb (detect svcs) AUTODETECT = false).
    { unfold detect. destruct (contains svcs _); [destruct (contains svcs _)|]; reflexivity. }
    rewrite Hd. reflexivity.
Qed.

Lemma firmware_and_detection_witness :
  scale (AccelerometerSensor__init__ (default "" (head []))) = 16%Q
  ∧ detect {[ _TI_UUID 0xFFA0 := ServiceOf (_TI_UUID 0xFFA0) ]} = SENSORTAG_V1.
Proof.
  split.
  - exact (proj1 (proj2 (proj2 (firmware_and_detection ∅ []))) eq_refl).
  - apply (proj1 (proj2 (proj2 (proj2 (proj2
             (firmware_and_detection {[ _TI_UUID 0xFFA0 := ServiceOf (_TI_UUID 0xFFA0) ]} [])))))).
    vm_compute. intros [? H]. discriminate.
Defined.
